(** * ms-migrate: the switch migration utility of [ms_migrate_cli/ms_device.py]

    A shallow embedding of the functions of the module ([get_switch_config],
    [get_switch_ports], [update_switch_config], [update_switch_ports],
    [clone_config], [get_api_key_from_env]) and of its three commands
    ([display], [migrate] and [tag]), and the properties of the port
    reconciliation, the precondition checks and the orchestration.

    Python values are the JSON-shaped values the dashboard client hands back.
    Port objects live in a store and are handled through their addresses,
    because [update_switch_ports] renumbers them in place.  Every collaborator
    call, console line and confirmation prompt is recorded in a trace. *)

From Stdlib Require Import ZArith String Ascii List Bool Lia.
From Stdlib Require Import Floats.SpecFloat.
From stdpp Require Import base list strings pretty.

Set Warnings "-register-all".

Open Scope Z_scope.

(** ** Python values and the builtins the program uses *)

Module Py.

(** A value as [response.json()] yields it.  Dictionaries keep insertion
    order and have string keys.  Strings are sequences of 8-bit characters. *)
Inductive pyval : Type :=
| PyNone
| PyBool (b : bool)
| PyInt (z : Z)
| PyFloat (f : spec_float)
| PyStr (s : string)
| PyList (l : list pyval)
| PyDict (d : list (string * pyval)).

Definition dict : Type := list (string * pyval).

(** Exceptions that can reach the code under study.  [BadParameter] is a
    subclass of [ClickException]; [Abort] derives from [RuntimeError]; all of
    them derive from [Exception].  [DanglingReference] is not a Python
    exception: it is what the model answers when an address outside the store
    is read, which no Python reference can be. *)
Inductive exn : Type :=
| ClickException (message : string)
| BadParameter (message : string)
| Abort
| APIError (message : string)
| TypeError
| ValueError
| AttributeError
| IndexError
| OverflowError
| OtherException (class_name : string)
| DanglingReference.

Definition is_APIError (e : exn) : bool :=
  match e with APIError _ => true | _ => false end.

(** [v is None] *)
Definition is_none (v : pyval) : bool :=
  match v with PyNone => true | _ => false end.

(** *** Dictionaries *)

Fixpoint dict_get {A : Type} (k : string) (d : list (string * A)) : option A :=
  match d with
  | [] => None
  | (k', v) :: r => if String.eqb k k' then Some v else dict_get k r
  end.

(** [d[k] = v]: an existing key keeps its position. *)
Fixpoint dict_set {A : Type} (k : string) (v : A) (d : list (string * A))
  : list (string * A) :=
  match d with
  | [] => [(k, v)]
  | (k', v') :: r =>
      if String.eqb k k' then (k, v) :: r else (k', v') :: dict_set k v r
  end.

(** The dictionary built from a stream of items, as [dict(items)] and a
    dictionary comprehension do. *)
Definition dict_of_items {A : Type} (items : list (string * A))
  : list (string * A) :=
  fold_left (fun d kv => dict_set (fst kv) (snd kv) d) items [].

(** [k in names] for a list of strings. *)
Definition str_in (k : string) (names : list string) : bool :=
  existsb (String.eqb k) names.

(** *** Equality [a == b] *)

Definition Z_of_bool (b : bool) : Z := if b then 1 else 0.

(** Exact comparison of a float with an integer. *)
Definition float_eq_Z (f : spec_float) (z : Z) : bool :=
  match f with
  | S754_zero _ => z =? 0
  | S754_finite s m e =>
      let sm := if s then Z.neg m else Z.pos m in
      if 0 <=? e then z =? sm * 2 ^ e else sm =? z * 2 ^ (- e)
  | _ => false
  end.

(** Numbers compare across [bool], [int] and [float]; strings with strings;
    lists element by element; dictionaries key by key whatever the order.
    Any other pair of types is unequal. *)
Fixpoint py_eq (a b : pyval) {struct a} : bool :=
  match a, b with
  | PyNone, PyNone => true
  | PyBool x, PyBool y => Bool.eqb x y
  | PyBool x, PyInt y => Z_of_bool x =? y
  | PyBool x, PyFloat y => float_eq_Z y (Z_of_bool x)
  | PyInt x, PyBool y => x =? Z_of_bool y
  | PyInt x, PyInt y => x =? y
  | PyInt x, PyFloat y => float_eq_Z y x
  | PyFloat x, PyBool y => float_eq_Z x (Z_of_bool y)
  | PyFloat x, PyInt y => float_eq_Z x y
  | PyFloat x, PyFloat y => SFeqb x y
  | PyStr s, PyStr t => String.eqb s t
  | PyList l, PyList l' =>
      (fix go (l : list pyval) (l' : list pyval) {struct l} : bool :=
         match l, l' with
         | [], [] => true
         | x :: r, y :: r' => py_eq x y && go r r'
         | _, _ => false
         end) l l'
  | PyDict d, PyDict d' =>
      Nat.eqb (length d) (length d') &&
      (fix go (d : list (string * pyval)) {struct d} : bool :=
         match d with
         | [] => true
         | (k, v) :: r =>
             match dict_get k d' with
             | Some v' => py_eq v v'
             | None => false
             end && go r
         end) d
  | _, _ => false
  end.

(** *** Membership [x in c] *)

(** Lists test their elements with [==], dictionaries their keys, strings
    look for a substring; anything else is not iterable.  The program only
    ever looks for a string. *)
Definition py_contains (c x : pyval) : exn + bool :=
  match c with
  | PyList l => inr (existsb (py_eq x) l)
  | PyDict d => inr (existsb (fun kv => py_eq x (PyStr (fst kv))) d)
  | PyStr s =>
      match x with
      | PyStr t => inr (match String.index 0 t s with Some _ => true | None => false end)
      | _ => inl TypeError
      end
  | _ => inl TypeError
  end.

(** *** [int(x)] *)

(** The white space that [int] skips around a number: tab, line feed,
    vertical tab, form feed, carriage return and space. *)
Definition is_space (c : ascii) : bool :=
  let n := nat_of_ascii c in
  ((9 <=? n)%nat && (n <=? 13)%nat) || (n =? 32)%nat.

Definition digit_val (c : ascii) : option Z :=
  let n := nat_of_ascii c in
  if ((48 <=? n)%nat && (n <=? 57)%nat)%bool then Some (Z.of_nat n - 48) else None.

(** Digits after the first one; a single underscore may sit between two
    digits. *)
Fixpoint int_digits (acc : Z) (cs : list ascii) {struct cs} : option Z :=
  match cs with
  | [] => Some acc
  | c :: r =>
      match digit_val c with
      | Some v => int_digits (acc * 10 + v) r
      | None =>
          if Ascii.eqb c "_"%char then
            match r with
            | d :: r' =>
                match digit_val d with
                | Some v => int_digits (acc * 10 + v) r'
                | None => None
                end
            | [] => None
            end
          else None
      end
  end.

Definition int_unsigned (cs : list ascii) : option Z :=
  match cs with
  | c :: r =>
      match digit_val c with
      | Some v => int_digits v r
      | None => None
      end
  | [] => None
  end.

Fixpoint lstrip (cs : list ascii) : list ascii :=
  match cs with
  | c :: r => if is_space c then lstrip r else cs
  | [] => []
  end.

Definition strip (cs : list ascii) : list ascii :=
  rev (lstrip (rev (lstrip cs))).

(** [int(s)] for a string of ASCII characters in base ten: surrounding white
    space, an optional sign, then digits.  Port numbers are such strings;
    decimal digits and spaces outside ASCII, which Python accepts too, are
    not modelled and are rejected here. *)
Definition int_of_str (s : string) : option Z :=
  match strip (list_ascii_of_string s) with
  | c :: r =>
      if Ascii.eqb c "-"%char then option_map Z.opp (int_unsigned r)
      else if Ascii.eqb c "+"%char then int_unsigned r
      else int_unsigned (c :: r)
  | [] => None
  end.

(** [int(f)] truncates toward zero. *)
Definition int_of_float (f : spec_float) : exn + Z :=
  match f with
  | S754_zero _ => inr 0
  | S754_infinity _ => inl OverflowError
  | S754_nan => inl ValueError
  | S754_finite s m e =>
      let v := if 0 <=? e then Z.pos m * 2 ^ e else Z.pos m / 2 ^ (- e) in
      inr (if s then - v else v)
  end.

Definition py_int (v : pyval) : exn + Z :=
  match v with
  | PyInt z => inr z
  | PyBool b => inr (Z_of_bool b)
  | PyFloat f => int_of_float f
  | PyStr s =>
      match int_of_str s with
      | Some z => inr z
      | None => inl ValueError
      end
  | _ => inl TypeError
  end.

(** The double quote character, as a string. *)
Definition dquote : string := String (ascii_of_nat 34) EmptyString.

(** [str(n)] for an integer. *)
Definition str_of_int (z : Z) : string := pretty z.

End Py.
Export Py.

(** ** The two dataclasses *)

(** No field is typed at run time: each holds whatever value the response
    carried, and [None] when the response had no such key. *)

Module Device.

Record SwitchDevice : Type := mk {
  name : pyval;
  model : pyval;
  mac : pyval;
  tags : pyval;
  lat : pyval;
  lng : pyval;
  address : pyval;
  notes : pyval;
  floorPlanId : pyval
}.

(** [inspect.signature(SwitchDevice).parameters] *)
Definition parameters : list string :=
  ["name"; "model"; "mac"; "tags"; "lat"; "lng"; "address"; "notes";
   "floorPlanId"].

(** Keyword construction of a [SwitchDevice]: every field defaults to [None]; a keyword that
    is not a field is a [TypeError]. *)
Definition init (kwargs : dict) : exn + SwitchDevice :=
  if forallb (fun kv => str_in (fst kv) parameters) kwargs then
    let arg k := default PyNone (dict_get k kwargs) in
    inr {| name := arg "name"; model := arg "model"; mac := arg "mac";
           tags := arg "tags"; lat := arg "lat"; lng := arg "lng";
           address := arg "address"; notes := arg "notes";
           floorPlanId := arg "floorPlanId" |}
  else inl TypeError.

(** The [(f.name, value)] pairs that [dataclasses.asdict] collects, in field
    order.  [asdict] rebuilds every nested list and dictionary, which on
    values is the identity. *)
Definition items (d : SwitchDevice) : list (string * pyval) :=
  [("name", name d); ("model", model d); ("mac", mac d); ("tags", tags d);
   ("lat", lat d); ("lng", lng d); ("address", address d);
   ("notes", notes d); ("floorPlanId", floorPlanId d)].

(** [dataclasses.asdict(d, dict_factory=...)] *)
Definition asdict (d : SwitchDevice)
  (dict_factory : list (string * pyval) -> dict) : dict :=
  dict_factory (items d).

(** [d.name = v] *)
Definition set_name (d : SwitchDevice) (v : pyval) : SwitchDevice :=
  {| name := v; model := model d; mac := mac d; tags := tags d;
     lat := lat d; lng := lng d; address := address d; notes := notes d;
     floorPlanId := floorPlanId d |}.

End Device.

Module Port.

Record SwitchPort : Type := mk {
  portId : pyval;
  name : pyval;
  tags : pyval;
  enabled : pyval;
  poeEnabled : pyval;
  type : pyval;
  vlan : pyval;
  voiceVlan : pyval;
  allowedVlans : pyval;
  isolationEnabled : pyval;
  rstpEnabled : pyval;
  stpGuard : pyval;
  linkNegotiation : pyval;
  portScheduleId : pyval;
  udld : pyval;
  accessPolicyType : pyval;
  accessPolicyNumber : pyval;
  macAllowList : pyval;
  stickyMacAllowList : pyval;
  stickyMacAllowListLimit : pyval;
  stormControlEnabled : pyval;
  adaptivePolicyGroupId : pyval;
  peerSgtCapable : pyval;
  flexibleStackingEnabled : pyval;
  daiTrusted : pyval;
  profile : pyval
}.

(** [inspect.signature(SwitchPort).parameters] *)
Definition parameters : list string :=
  ["portId"; "name"; "tags"; "enabled"; "poeEnabled"; "type"; "vlan";
   "voiceVlan"; "allowedVlans"; "isolationEnabled"; "rstpEnabled";
   "stpGuard"; "linkNegotiation"; "portScheduleId"; "udld";
   "accessPolicyType"; "accessPolicyNumber"; "macAllowList";
   "stickyMacAllowList"; "stickyMacAllowListLimit"; "stormControlEnabled";
   "adaptivePolicyGroupId"; "peerSgtCapable"; "flexibleStackingEnabled";
   "daiTrusted"; "profile"].

(** Keyword construction of a [SwitchPort]. *)
Definition init (kwargs : dict) : exn + SwitchPort :=
  if forallb (fun kv => str_in (fst kv) parameters) kwargs then
    let arg k := default PyNone (dict_get k kwargs) in
    inr {| portId := arg "portId"; name := arg "name"; tags := arg "tags";
           enabled := arg "enabled"; poeEnabled := arg "poeEnabled";
           type := arg "type"; vlan := arg "vlan";
           voiceVlan := arg "voiceVlan"; allowedVlans := arg "allowedVlans";
           isolationEnabled := arg "isolationEnabled";
           rstpEnabled := arg "rstpEnabled"; stpGuard := arg "stpGuard";
           linkNegotiation := arg "linkNegotiation";
           portScheduleId := arg "portScheduleId"; udld := arg "udld";
           accessPolicyType := arg "accessPolicyType";
           accessPolicyNumber := arg "accessPolicyNumber";
           macAllowList := arg "macAllowList";
           stickyMacAllowList := arg "stickyMacAllowList";
           stickyMacAllowListLimit := arg "stickyMacAllowListLimit";
           stormControlEnabled := arg "stormControlEnabled";
           adaptivePolicyGroupId := arg "adaptivePolicyGroupId";
           peerSgtCapable := arg "peerSgtCapable";
           flexibleStackingEnabled := arg "flexibleStackingEnabled";
           daiTrusted := arg "daiTrusted"; profile := arg "profile" |}
  else inl TypeError.

(** The pairs that [dataclasses.asdict] collects for a port.  Here too every
    nested list and dictionary is rebuilt, so a port made from them shares
    nothing with the port they were read from. *)
Definition items (p : SwitchPort) : list (string * pyval) :=
  [("portId", portId p); ("name", name p); ("tags", tags p);
   ("enabled", enabled p); ("poeEnabled", poeEnabled p); ("type", type p);
   ("vlan", vlan p); ("voiceVlan", voiceVlan p);
   ("allowedVlans", allowedVlans p);
   ("isolationEnabled", isolationEnabled p);
   ("rstpEnabled", rstpEnabled p); ("stpGuard", stpGuard p);
   ("linkNegotiation", linkNegotiation p);
   ("portScheduleId", portScheduleId p); ("udld", udld p);
   ("accessPolicyType", accessPolicyType p);
   ("accessPolicyNumber", accessPolicyNumber p);
   ("macAllowList", macAllowList p);
   ("stickyMacAllowList", stickyMacAllowList p);
   ("stickyMacAllowListLimit", stickyMacAllowListLimit p);
   ("stormControlEnabled", stormControlEnabled p);
   ("adaptivePolicyGroupId", adaptivePolicyGroupId p);
   ("peerSgtCapable", peerSgtCapable p);
   ("flexibleStackingEnabled", flexibleStackingEnabled p);
   ("daiTrusted", daiTrusted p); ("profile", profile p)].

Definition asdict (p : SwitchPort)
  (dict_factory : list (string * pyval) -> dict) : dict :=
  dict_factory (items p).

(** [p.portId = v] *)
Definition set_portId (p : SwitchPort) (v : pyval) : SwitchPort :=
  {| portId := v; name := name p; tags := tags p; enabled := enabled p;
     poeEnabled := poeEnabled p; type := type p; vlan := vlan p;
     voiceVlan := voiceVlan p; allowedVlans := allowedVlans p;
     isolationEnabled := isolationEnabled p; rstpEnabled := rstpEnabled p;
     stpGuard := stpGuard p; linkNegotiation := linkNegotiation p;
     portScheduleId := portScheduleId p; udld := udld p;
     accessPolicyType := accessPolicyType p;
     accessPolicyNumber := accessPolicyNumber p;
     macAllowList := macAllowList p;
     stickyMacAllowList := stickyMacAllowList p;
     stickyMacAllowListLimit := stickyMacAllowListLimit p;
     stormControlEnabled := stormControlEnabled p;
     adaptivePolicyGroupId := adaptivePolicyGroupId p;
     peerSgtCapable := peerSgtCapable p;
     flexibleStackingEnabled := flexibleStackingEnabled p;
     daiTrusted := daiTrusted p; profile := profile p |}.

End Port.

Abbreviation SwitchDevice := Device.SwitchDevice.
Abbreviation SwitchPort := Port.SwitchPort.

(** ** The world the program runs in *)

(** The collaborator calls the program makes on the [meraki] client. *)
Inductive call : Type :=
| DashboardAPI (api_key : string) (suppress_logging : bool)
| getDevice (serial : string)
| getDeviceSwitchPorts (serial : string)
| updateDevice (serial : string) (kwargs : dict)
| updateDeviceSwitchPort (serial : string) (port_id : pyval) (kwargs : dict)
| cloneOrganizationSwitchDevices (organization_id source_serial : string)
    (target_serials : list string).

(** What an observer sees of a run, in order. *)
Inductive event : Type :=
| Called (c : call)
| Echo (line : string)
| Confirm (prompt : string).

Definition is_port_update (e : event) : bool :=
  match e with Called (updateDeviceSwitchPort _ _ _) => true | _ => false end.

Definition is_device_update (e : event) : bool :=
  match e with Called (updateDevice _ _) => true | _ => false end.

(** An address in the store of port objects. *)
Definition addr : Type := nat.

Section Program.

(** The state of the remote dashboard, and the client: how a call answers
    (a value or an exception) and what it leaves behind. *)
Context {R : Type}.
Definition client : Type := call -> R -> (exn + pyval) * R.

(** [repr] of a float, a list or a dictionary. *)
Variable py_repr : pyval -> string.

(** [str(v)], which is also what an f-string and [click.echo] render. *)
Definition py_str (v : pyval) : string :=
  match v with
  | PyNone => "None"
  | PyBool true => "True"
  | PyBool false => "False"
  | PyInt z => str_of_int z
  | PyStr s => s
  | _ => py_repr v
  end.

Record World : Type := mkWorld {
  heap : list SwitchPort;       (* the port objects, by address *)
  remote : R;                   (* the dashboard *)
  trace : list event;           (* calls, console lines and prompts so far *)
  stdin : list bool;            (* the operator's answers to come *)
  environ : list (string * string)
}.

Definition with_heap (h : list SwitchPort) (w : World) : World :=
  mkWorld h (remote w) (trace w) (stdin w) (environ w).
Definition with_remote (r : R) (w : World) : World :=
  mkWorld (heap w) r (trace w) (stdin w) (environ w).
Definition with_stdin (i : list bool) (w : World) : World :=
  mkWorld (heap w) (remote w) (trace w) i (environ w).
Definition emit (e : event) (w : World) : World :=
  mkWorld (heap w) (remote w) (trace w ++ [e]) (stdin w) (environ w).

(** A computation either raises or returns, and always leaves a world. *)
Definition M (A : Type) : Type := World -> (exn + A) * World.

Definition ret {A} (a : A) : M A := fun w => (inr a, w).

Definition raise {A} (e : exn) : M A := fun w => (inl e, w).

Definition bind {A B} (m : M A) (k : A -> M B) : M B :=
  fun w => match m w with
           | (inr a, w') => k a w'
           | (inl e, w') => (inl e, w')
           end.

Definition lift {A} (r : exn + A) : M A :=
  match r with inl e => raise e | inr a => ret a end.

(** [try: body  except <class> as e: handler(e)] *)
Definition try_except {A} (body : M A) (catches : exn -> bool)
  (handler : exn -> M A) : M A :=
  fun w => match body w with
           | (inl e, w') => if catches e then handler e w' else (inl e, w')
           | r => r
           end.

(** [except Exception] *)
Definition Exception (e : exn) : bool := true.

Notation "x <- m ;; k" := (bind m (fun x => k))
  (at level 100, m at next level, right associativity).
Notation "m ;;; k" := (bind m (fun _ => k))
  (at level 100, right associativity).

Fixpoint for_each {A} (l : list A) (body : A -> M unit) : M unit :=
  match l with
  | [] => ret tt
  | x :: r => body x ;;; for_each r body
  end.

(** A loop that carries a local variable from one round to the next. *)
Fixpoint for_fold {A S} (l : list A) (s : S) (body : S -> A -> M S) : M S :=
  match l with
  | [] => ret s
  | x :: r => s' <- body s x ;; for_fold r s' body
  end.

(** *** Console *)

(** [click.echo] and [click.secho]; colours are not recorded. *)
Definition echo (line : string) : M unit :=
  fun w => (inr tt, emit (Echo line) w).

(** [click.confirm(prompt, abort=True)]: the prompt is shown, and anything
    but a yes, the end of input included, raises [Abort]. *)
Definition confirm (prompt : string) : M unit :=
  fun w => let w' := emit (Confirm prompt) w in
           match stdin w with
           | true :: rest => (inr tt, with_stdin rest w')
           | false :: rest => (inl Abort, with_stdin rest w')
           | [] => (inl Abort, w')
           end.

(** *** The collaborator *)

Definition invoke (dashboard_api : client) (c : call) : M pyval :=
  fun w => let (r, remote') := dashboard_api c (remote w) in
           (r, emit (Called c) (with_remote remote' w)).

(** *** Port objects *)

(** A new object gets the next free address. *)
Definition alloc (p : SwitchPort) : M addr :=
  fun w => (inr (length (heap w)), with_heap (heap w ++ [p]) w).

Definition load (a : addr) : M SwitchPort :=
  fun w => match heap w !! a with
           | Some p => (inr p, w)
           | None => (inl DanglingReference, w)
           end.

Definition store (a : addr) (p : SwitchPort) : M unit :=
  fun w => match heap w !! a with
           | Some _ => (inr tt, with_heap (<[a := p]> (heap w)) w)
           | None => (inl DanglingReference, w)
           end.

(** *** Remaining builtins *)

(** [d.items()] *)
Definition py_items (v : pyval) : exn + list (string * pyval) :=
  match v with
  | PyDict d => inr d
  | _ => inl AttributeError
  end.

(** The elements a [for] loop draws from a value. *)
Definition py_iter (v : pyval) : exn + list pyval :=
  match v with
  | PyList l => inr l
  | PyDict d => inr (map (fun kv => PyStr (fst kv)) d)
  | PyStr s => inr (map (fun c => PyStr (String c EmptyString)) (list_ascii_of_string s))
  | _ => inl TypeError
  end.

(** [min(l, key=key)]: the first element whose key is least. *)
Definition py_min (key : Z -> Z) (l : list Z) : exn + Z :=
  match l with
  | [] => inl ValueError
  | x :: r => inr (fold_left (fun best y => if key y <? key best then y else best) r x)
  end.

(** [l[i]] for [0 <= i] *)
Definition py_index {A} (l : list A) (i : nat) : exn + A :=
  match l !! i with
  | Some x => inr x
  | None => inl IndexError
  end.

(** [range(a, b)] *)
Definition range (a b : Z) : list Z := seqZ a (b - a).

(** ** The program *)

(** The dictionary comprehension of [get_switch_config] and
    [get_switch_ports]: the items whose key is a constructor parameter. *)
Definition known_items (parameters : list string)
  (items : list (string * pyval)) : dict :=
  dict_of_items (List.filter (fun kv => str_in (fst kv) parameters) items).

Definition get_switch_config (dashboard_api : client) (serial : string)
  : M SwitchDevice :=
  try_except
    (response <- invoke dashboard_api (getDevice serial) ;;
     items <- lift (py_items response) ;;
     switch_config <- lift (Device.init (known_items Device.parameters items)) ;;
     ret switch_config)
    Exception
    (fun e => raise (ClickException
       ("Error getting switch configuration for " +:+ serial +:+ "."))).

Definition get_switch_ports (dashboard_api : client) (serial : string)
  : M (list addr) :=
  try_except
    (response <- invoke dashboard_api (getDeviceSwitchPorts serial) ;;
     elements <- lift (py_iter response) ;;
     ports <- for_fold elements []
       (fun ports port =>
          items <- lift (py_items port) ;;
          p <- lift (Port.init (known_items Port.parameters items)) ;;
          a <- alloc p ;;
          ret (ports ++ [a])) ;;
     if (length ports =? 0)%nat then
       raise (ClickException
         ("Response contained zero port configurations for switch "
            +:+ serial +:+ "."))
     else ret ports)
    Exception
    (fun e => raise (ClickException
       ("Error getting port configurations on switch " +:+ serial +:+ "."))).

(** The [dict_factory] of [update_switch_config]. *)
Definition not_none_items (x : list (string * pyval)) : dict :=
  dict_of_items (List.filter (fun kv => negb (is_none (snd kv))) x).

(** The [dict_factory] of [update_switch_ports]. *)
Definition not_none_not_portId_items (x : list (string * pyval)) : dict :=
  dict_of_items
    (List.filter
       (fun kv => negb (is_none (snd kv)) && negb (String.eqb (fst kv) "portId"))
       x).

(** The device is passed by value: nothing reads the caller's object after
    this function has renamed it. *)
Definition update_switch_config (dashboard_api : client)
  (source_device : SwitchDevice) (target_serial : string) : M unit :=
  echo ("---- Updating switch configuration for " +:+ target_serial +:+ " ----") ;;;
  let source_device :=
    Device.set_name source_device
      (PyStr (py_str (Device.name source_device) +:+ "-clone")) in
  let update_device_kwargs := Device.asdict source_device not_none_items in
  try_except
    (response <- invoke dashboard_api (updateDevice target_serial update_device_kwargs) ;;
     echo (py_str response))
    Exception
    (fun e => raise (ClickException
       ("Error updating switch configuration for " +:+ target_serial +:+ "."))).

Definition rj45_ports : list Z := [8; 24; 48].

(** Lines 166 and 167: from the possible RJ45 port counts, the one at or
    nearest below [port_count]. *)
Definition rj45_count (port_count : Z) : exn + Z :=
  py_min (fun x => if x <=? port_count then Z.abs (x - port_count) else x)
    rj45_ports.

(** [port.portId = str(int(port.portId) + delta)] *)
Definition shift_portId (delta : Z) (port : addr) : M unit :=
  p <- load port ;;
  n <- lift (py_int (Port.portId p)) ;;
  store port (Port.set_portId p (PyStr (str_of_int (n + delta)))).

(** One round of the loop of lines 175 to 177: a new port built from the
    fields of the first one is appended to the list, and the port then found
    at index [n] gets the port number [n + 1]. *)
Definition duplicate_first (source_rj45_ports : list addr) (n : Z)
  : M (list addr) :=
  first <- lift (py_index source_rj45_ports 0) ;;
  p <- load first ;;
  copy <- lift (Port.init (Port.asdict p dict_of_items)) ;;
  a <- alloc copy ;;
  let source_rj45_ports := source_rj45_ports ++ [a] in
  nth <- lift (py_index source_rj45_ports (Z.to_nat n)) ;;
  q <- load nth ;;
  store nth (Port.set_portId q (PyStr (str_of_int (n + 1)))) ;;;
  ret source_rj45_ports.

(** Lines 159 to 189 of [update_switch_ports]: the list
    [adjusted_source_ports], computed before the first port is updated. *)
Definition adjusted_source_ports (source_ports : list addr)
  (target_serial : string) (target_port_count : Z) : M (list addr) :=
  let source_port_count := Z.of_nat (length source_ports) in
  if source_port_count =? 0 then
    raise (ClickException
      ("No ports found on source switch " +:+ target_serial +:+ "."))
  else
  source_rj45_count <- lift (rj45_count source_port_count) ;;
  target_rj45_count <- lift (rj45_count target_port_count) ;;
  let source_rj45_ports := take (Z.to_nat source_rj45_count) source_ports in
  let source_sfp_ports := drop (Z.to_nat source_rj45_count) source_ports in
  source_rj45_ports <-
    (if negb (source_rj45_count =? target_rj45_count) then
       if (source_rj45_count =? 24) && (target_rj45_count =? 48) then
         source_rj45_ports <-
           for_fold (range 24 48) source_rj45_ports duplicate_first ;;
         for_each source_sfp_ports (shift_portId 24) ;;;
         ret source_rj45_ports
       else if (source_rj45_count =? 48) && (target_rj45_count =? 24) then
         let source_rj45_ports := take 24 source_rj45_ports in
         for_each source_sfp_ports (shift_portId (-24)) ;;;
         ret source_rj45_ports
       else
         raise (BadParameter
           ("Incompatible port counts (" +:+ str_of_int source_rj45_count
              +:+ "-port switch -> " +:+ str_of_int target_rj45_count
              +:+ "-port switch)."))
     else ret source_rj45_ports) ;;
  ret (source_rj45_ports ++ source_sfp_ports).

(** One round of the loop of lines 191 to 200. *)
Definition update_port (dashboard_api : client) (target_serial : string)
  (port : addr) : M unit :=
  p <- load port ;;
  echo ("---- Updating port " +:+ py_str (Port.portId p) +:+ " on "
          +:+ target_serial +:+ " ----") ;;;
  let update_port_kwargs := Port.asdict p not_none_not_portId_items in
  try_except
    (response <- invoke dashboard_api
       (updateDeviceSwitchPort target_serial (Port.portId p) update_port_kwargs) ;;
     echo (py_str response))
    Exception
    (fun e => raise (ClickException
       ("Error updating port " +:+ py_str (Port.portId p) +:+ " on switch "
          +:+ target_serial +:+ "."))).

Definition update_switch_ports (dashboard_api : client)
  (source_ports : list addr) (target_serial : string)
  (target_port_count : Z) : M unit :=
  adjusted_source_ports <-
    adjusted_source_ports source_ports target_serial target_port_count ;;
  for_each adjusted_source_ports (update_port dashboard_api target_serial).

Definition clone_config (dashboard_api : client)
  (organization_id source_serial target_serial : string) : M unit :=
  try_except
    (response <- invoke dashboard_api
       (cloneOrganizationSwitchDevices organization_id source_serial [target_serial]) ;;
     echo (py_str response))
    Exception
    (fun e => raise (ClickException
       ("Error cloning configuration from " +:+ source_serial +:+ " to "
          +:+ target_serial +:+ "."))).

Definition get_api_key_from_env : M string :=
  fun w => match dict_get "MERAKI_DASHBOARD_API_KEY" (environ w) with
           | None => (inl (BadParameter
               "No API key provided. Please set the environment variable MERAKI_DASHBOARD_API_KEY."), w)
           | Some meraki_dashboard_api_key => (inr meraki_dashboard_api_key, w)
           end.

(** The loops of [migrate] that print the fields of a device that are set. *)
Definition show_device (title : string) (device : SwitchDevice) : M unit :=
  echo title ;;;
  for_each (Device.items device)
    (fun f => if negb (is_none (snd f))
              then echo (fst f +:+ ": " +:+ py_str (snd f))
              else ret tt).

(** Lines 344 to 353 of [migrate]: the checks on the target device. *)
Definition precondition_checks (yes : bool)
  (source_serial target_serial : string) (target_device : SwitchDevice)
  : M unit :=
  let update_allowed_tag := "undeployed" in
  if py_eq (Device.name target_device) (Device.mac target_device) then
    raise (ClickException
      ("Target switch " +:+ target_serial
         +:+ " appears to be in use (name = mac address)."))
  else
    tagged <- lift (py_contains (Device.tags target_device) (PyStr update_allowed_tag)) ;;
    if negb tagged then
      raise (ClickException
        ("Target switch " +:+ target_serial +:+ " does not have the "
           +:+ dquote +:+ update_allowed_tag +:+ dquote +:+ " tag."))
    else if negb yes then
      confirm ("Continue copying configuration from " +:+ source_serial
                 +:+ " to " +:+ target_serial +:+ "?")
    else
      echo ("Copying configuration from " +:+ source_serial +:+ " to "
              +:+ target_serial +:+ "...").

(** Lines 358 to 363 of [migrate]. *)
Definition migrate_apply (dashboard_api : client)
  (organization_id : option string) (source_serial target_serial : string)
  (source_device target_device : SwitchDevice)
  (source_ports target_ports : list addr) : M unit :=
  (if py_eq (Device.model source_device) (Device.model target_device)
   then match organization_id with
        | Some organization_id =>
            clone_config dashboard_api organization_id source_serial target_serial
        | None => ret tt
        end
   else ret tt) ;;;
  update_switch_ports dashboard_api source_ports target_serial
    (Z.of_nat (length target_ports)) ;;;
  update_switch_config dashboard_api source_device target_serial.

Definition migrate (dashboard_api : client) (api_key : string)
  (organization_id : option string) (quiet yes : bool)
  (source_serial target_serial : string) : M unit :=
  api_key <- (if String.eqb api_key "MERAKI_DASHBOARD_API_KEY"
              then get_api_key_from_env else ret api_key) ;;
  try_except
    (invoke dashboard_api (DashboardAPI api_key quiet) ;;;
     source_device <- get_switch_config dashboard_api source_serial ;;
     target_device <- get_switch_config dashboard_api target_serial ;;
     show_device "---- Source device ----" source_device ;;;
     show_device "---- Target device ----" target_device ;;;
     precondition_checks yes source_serial target_serial target_device ;;;
     source_ports <- get_switch_ports dashboard_api source_serial ;;
     target_ports <- get_switch_ports dashboard_api target_serial ;;
     migrate_apply dashboard_api organization_id source_serial target_serial
       source_device target_device source_ports target_ports)
    is_APIError
    (fun e =>
       echo ("Error migrating switch configuration: " +:+
               match e with APIError message => message | _ => "" end) ;;;
       raise Abort).

(** *** The other two commands *)

(** The loops of [display] and [tag] over [dataclasses.fields]: one line for
    each field that is set. *)
Definition show_fields (items : list (string * pyval)) : M unit :=
  for_each items
    (fun f => if negb (is_none (snd f))
              then echo (fst f +:+ ": " +:+ py_str (snd f))
              else ret tt).

Definition display (dashboard_api : client) (api_key device_serial : string)
  : M unit :=
  api_key <- (if String.eqb api_key "MERAKI_DASHBOARD_API_KEY"
              then get_api_key_from_env else ret api_key) ;;
  try_except
    (invoke dashboard_api (DashboardAPI api_key true) ;;;
     echo "---- Switch device ----" ;;;
     switch_device <- get_switch_config dashboard_api device_serial ;;
     show_fields (Device.items switch_device) ;;;
     switch_ports <- get_switch_ports dashboard_api device_serial ;;
     for_each switch_ports
       (fun port =>
          p <- load port ;;
          echo ("---- Port " +:+ py_str (Port.portId p) +:+ " ----") ;;;
          show_fields (Port.items p)))
    Exception
    (fun e => raise (ClickException
       ("Error displaying switch configuration for " +:+ device_serial
          +:+ "."))).

(** [l.append(x)]: only a list has the method. *)
Definition py_append (l x : pyval) : exn + pyval :=
  match l with
  | PyList l => inr (PyList (l ++ [x]))
  | _ => inl AttributeError
  end.

(** Lines 399 to 404 of [tag]: the tag is appended and the tags are sent. *)
Definition add_undeployed_tag (dashboard_api : client)
  (device_serial : string) (device : SwitchDevice) : M unit :=
  echo ("Adding " +:+ dquote +:+ "undeployed" +:+ dquote +:+ " tag...") ;;;
  tags <- lift (py_append (Device.tags device) (PyStr "undeployed")) ;;
  let device_kwargs := [("tags", tags)] in
  response <- invoke dashboard_api (updateDevice device_serial device_kwargs) ;;
  echo (py_str response).

Definition tag (dashboard_api : client) (api_key device_serial : string)
  : M unit :=
  api_key <- (if String.eqb api_key "MERAKI_DASHBOARD_API_KEY"
              then get_api_key_from_env else ret api_key) ;;
  try_except
    (invoke dashboard_api (DashboardAPI api_key true) ;;;
     device <- get_switch_config dashboard_api device_serial ;;
     echo "---- Switch device ----" ;;;
     show_fields (Device.items device) ;;;
     add_undeployed_tag dashboard_api device_serial device ;;;
     echo "---- Updated device config ----" ;;;
     switch_device <- get_switch_config dashboard_api device_serial ;;
     show_fields (Device.items switch_device))
    is_APIError
    (fun e =>
       echo ("Error adding tag to switch " +:+ device_serial +:+ ".") ;;;
       raise Abort).

End Program.

Arguments World : clear implicits.
Arguments client : clear implicits.
Arguments M : clear implicits.

(** ** Notions used in the statements *)

(** A field is unset in a mapping when the mapping gives it no value other
    than [None]: the key is missing, or present with [None]. *)
Definition unset_in (mapping : list (string * pyval)) (k : string) : Prop :=
  forall v, In (k, v) mapping -> v = PyNone.

(** A computation only ever adds to the trace. *)
Definition extends {R A} (m : M R A) : Prop :=
  forall w, exists t, trace (snd (m w)) = trace w ++ t.

(** A computation adds to the trace only events that [p] accepts. *)
Definition emits {R A} (p : event -> bool) (m : M R A) : Prop :=
  forall w, exists t, trace (snd (m w)) = trace w ++ t /\ forallb p t = true.

(** The collaborator calls among the events of a trace, in order. *)
Definition calls (t : list event) : list call :=
  omap (fun e => match e with Called c => Some c | _ => None end) t.

(** The calls that change something on the dashboard. *)
Definition is_mutation (e : event) : bool :=
  match e with
  | Called (updateDevice _ _) => true
  | Called (updateDeviceSwitchPort _ _ _) => true
  | Called (cloneOrganizationSwitchDevices _ _ _) => true
  | _ => false
  end.

Definition is_clone (e : event) : bool :=
  match e with
  | Called (cloneOrganizationSwitchDevices _ _ _) => true
  | _ => false
  end.

(** Nothing but console lines and updates of the ports of one switch. *)
Definition only_port_updates_of (serial : string) (e : event) : bool :=
  match e with
  | Echo _ => true
  | Called (updateDeviceSwitchPort s _ _) => String.eqb s serial
  | _ => false
  end.

(** Nothing but console lines, the client and reads of one switch. *)
Definition only_reads_of (serial : string) (e : event) : bool :=
  match e with
  | Echo _ => true
  | Called (DashboardAPI _ _) => true
  | Called (getDevice s) => String.eqb s serial
  | Called (getDeviceSwitchPorts s) => String.eqb s serial
  | _ => false
  end.

(** Nothing but console lines, the client, reads of one switch, and updates
    of that switch that set its [tags], and nothing else, to a list that ends
    with "undeployed". *)
Definition only_tagging_of (serial : string) (e : event) : bool :=
  match e with
  | Echo _ => true
  | Called (DashboardAPI _ _) => true
  | Called (getDevice s) => String.eqb s serial
  | Called (updateDevice s [(k, PyList l)]) =>
      String.eqb s serial && String.eqb k "tags" &&
      match last l with
      | Some (PyStr tag) => String.eqb tag "undeployed"
      | _ => false
      end
  | _ => false
  end.

(** The update call that [update_switch_ports] makes for the port at [a]. *)
Definition port_update_call (serial : string) (h : list SwitchPort) (a : addr)
  : option call :=
  p ← h !! a;
  Some (updateDeviceSwitchPort serial (Port.portId p)
          (Port.asdict p not_none_not_portId_items)).

(** The fields of a port other than its number, with their names. *)
Definition other_fields (p : SwitchPort) : list (string * pyval) :=
  List.filter (fun kv => negb (String.eqb (fst kv) "portId")) (Port.items p).

(** The answers of the dashboard to the calls [cs], made one after the other
    from the state [r], up to and including the first one that fails. *)
Fixpoint answers {R} (dashboard_api : client R) (cs : list call) (r : R)
  : list (exn + pyval) :=
  match cs with
  | [] => []
  | c :: cs =>
      match dashboard_api c r with
      | (inl e, _) => [inl e]
      | (inr response, r') => inr response :: answers dashboard_api cs r'
      end
  end.

(** The value of a run of decimal digits that continues the number [acc]. *)
Definition digits_value (acc : Z) (ds : list ascii) : Z :=
  fold_left (fun a c => a * 10 + default 0 (digit_val c)) ds acc.

Definition is_digit (c : ascii) : Prop := exists v, digit_val c = Some v.

(** The messages and the prompt of the checks on the target device. *)
Definition in_use_message (target_serial : string) : string :=
  "Target switch " +:+ target_serial
    +:+ " appears to be in use (name = mac address).".

Definition not_undeployed_message (target_serial : string) : string :=
  "Target switch " +:+ target_serial +:+ " does not have the "
    +:+ dquote +:+ "undeployed" +:+ dquote +:+ " tag.".

Definition confirm_prompt (source_serial target_serial : string) : string :=
  "Continue copying configuration from " +:+ source_serial +:+ " to "
    +:+ target_serial +:+ "?".

(** ** Concrete runs *)

Module Demo.

Definition repr (v : pyval) : string := "<repr>".

(** A port as [getDeviceSwitchPorts] describes it. *)
Definition port_fields (i : Z) : pyval :=
  PyDict [("portId", PyStr (str_of_int i)); ("name", PyNone);
          ("enabled", PyBool true); ("type", PyStr "access");
          ("vlan", PyInt (100 + i)); ("linkNegotiation", PyStr "Auto negotiate")].

Definition ports (n : Z) : pyval := PyList (map port_fields (seqZ 1 n)).

Definition device_fields (name model mac : string) (tags : pyval) : pyval :=
  PyDict [("name", PyStr name); ("serial", PyStr "Q2XX-0000-0000");
          ("model", PyStr model); ("mac", PyStr mac); ("tags", tags);
          ("notes", PyNone)].

(** A dashboard that holds a source "SRC" with [n_source] ports and a target
    "TGT" with [n_target] ports, of the models given, and on which cloning
    fails when [clone_fails] is set.  It has no state of its own. *)
Definition dashboard (n_source n_target : Z) (source_model target_model : string)
    (clone_fails : bool) : client unit :=
  fun c r =>
    match c with
    | DashboardAPI _ _ => (inr PyNone, r)
    | getDevice serial =>
        if String.eqb serial "SRC" then
          (inr (device_fields "core-sw" source_model "00:18:0a:00:00:01"
                  (PyList [PyStr "lab"])), r)
        else
          (inr (device_fields "spare" target_model "00:18:0a:00:00:02"
                  (PyList [PyStr "undeployed"])), r)
    | getDeviceSwitchPorts serial =>
        (inr (ports (if String.eqb serial "SRC" then n_source else n_target)), r)
    | updateDevice _ kwargs => (inr (PyDict kwargs), r)
    | updateDeviceSwitchPort _ _ kwargs => (inr (PyDict kwargs), r)
    | cloneOrganizationSwitchDevices _ _ _ =>
        if clone_fails then (inl (APIError "400 Bad Request"), r)
        else (inr PyNone, r)
    end.

Definition start : World unit :=
  mkWorld [] tt [] [] [("MERAKI_DASHBOARD_API_KEY", "0123456789abcdef")].

(** The world once the ports of a source with [n] ports have been fetched. *)
Definition fetched (n : Z) : (exn + list addr) * World unit :=
  get_switch_ports (dashboard n n "MS120-24" "MS120-24" false) "SRC" start.

Definition target_in_use : SwitchDevice :=
  Device.mk (PyStr "00:18:0a:00:00:02") (PyStr "MS120-48")
    (PyStr "00:18:0a:00:00:02") PyNone PyNone PyNone PyNone PyNone PyNone.

Definition target_untagged : SwitchDevice :=
  Device.mk (PyStr "spare") (PyStr "MS120-48") (PyStr "00:18:0a:00:00:02")
    (PyList [PyStr "lab"]) PyNone PyNone PyNone PyNone PyNone.

Definition target_ready : SwitchDevice :=
  Device.mk (PyStr "spare") (PyStr "MS120-48") (PyStr "00:18:0a:00:00:02")
    (PyList [PyStr "lab"; PyStr "undeployed"]) PyNone PyNone PyNone PyNone
    PyNone.

Definition target_without_tags : SwitchDevice :=
  Device.mk (PyStr "spare") (PyStr "MS120-48") (PyStr "00:18:0a:00:00:02")
    PyNone PyNone PyNone PyNone PyNone PyNone.

Definition source_without_name : SwitchDevice :=
  Device.mk PyNone (PyStr "MS120-24") (PyStr "00:18:0a:00:00:01")
    (PyList [PyStr "lab"]) PyNone PyNone PyNone PyNone PyNone.

Definition fetched_8 : World unit := snd (fetched 8).
Definition fetched_26 : World unit := snd (fetched 26).
Definition fetched_50 : World unit := snd (fetched 50).

Definition mapping : list (string * pyval) :=
  [("name", PyStr "core-sw"); ("serial", PyStr "Q2XX-0000-0000");
   ("notes", PyNone); ("vlan", PyInt 20)].

Definition clone : call :=
  cloneOrganizationSwitchDevices "537758" "SRC" ["TGT"].

(** The apply steps on a dashboard whose clone call fails. *)
Definition apply_with_failing_clone : (exn + unit) * World unit :=
  migrate_apply repr (dashboard 8 8 "MS120-8" "MS120-8" true) (Some "537758")
    "SRC" "TGT" source_without_name source_without_name (seq 0 8) (seq 0 8)
    fetched_8.

(** A whole migration, confirmed in advance, on that dashboard. *)
Definition clone_failure_run : (exn + unit) * World unit :=
  migrate repr (dashboard 8 8 "MS120-8" "MS120-8" true)
    "MERAKI_DASHBOARD_API_KEY" (Some "537758") true true "SRC" "TGT" start.

(** A dashboard whose device has no tags at all. *)
Definition untagged_dashboard : client unit :=
  fun c r =>
    match c with
    | getDevice _ =>
        (inr (device_fields "spare" "MS120-48" "00:18:0a:00:00:02" PyNone), r)
    | _ => dashboard 8 8 "MS120-48" "MS120-48" false c r
    end.

(** The 26 fetched ports, with their port numbers taken away. *)
Definition unnumbered : World unit :=
  with_heap (map (fun q => Port.set_portId q PyNone) (heap fetched_26))
    fetched_26.

Definition no_environment : World unit := mkWorld [] tt [] [] [].

(** A whole migration between two 8-port switches of one model, confirmed in
    advance, on a dashboard where every call succeeds. *)
Definition successful_run : (exn + unit) * World unit :=
  migrate repr (dashboard 8 8 "MS120-8" "MS120-8" false)
    "MERAKI_DASHBOARD_API_KEY" (Some "537758") true true "SRC" "TGT" start.

(** The dictionaries that the dashboards above answer to a read of a
    device. *)
Definition source_mapping : list (string * pyval) :=
  [("name", PyStr "core-sw"); ("serial", PyStr "Q2XX-0000-0000");
   ("model", PyStr "MS120-8"); ("mac", PyStr "00:18:0a:00:00:01");
   ("tags", PyList [PyStr "lab"]); ("notes", PyNone)].

Definition target_mapping : list (string * pyval) :=
  [("name", PyStr "spare"); ("serial", PyStr "Q2XX-0000-0000");
   ("model", PyStr "MS120-8"); ("mac", PyStr "00:18:0a:00:00:02");
   ("tags", PyList [PyStr "undeployed"]); ("notes", PyNone)].

Definition untagged_mapping : list (string * pyval) :=
  [("name", PyStr "spare"); ("serial", PyStr "Q2XX-0000-0000");
   ("model", PyStr "MS120-48"); ("mac", PyStr "00:18:0a:00:00:02");
   ("tags", PyNone); ("notes", PyNone)].

(** The first uplink port of the 26 fetched ports. *)
Definition port_25 : SwitchPort :=
  Port.mk (PyStr "25") PyNone PyNone (PyBool true) PyNone (PyStr "access")
    (PyInt 125) PyNone PyNone PyNone PyNone PyNone (PyStr "Auto negotiate")
    PyNone PyNone PyNone PyNone PyNone PyNone PyNone PyNone PyNone PyNone
    PyNone PyNone PyNone.

(** A mapping that gives the device no name. *)
Definition nameless_mapping : list (string * pyval) :=
  [("model", PyStr "MS120-24"); ("notes", PyNone)].

(** A whole migration, confirmed in advance, to a target without tags. *)
Definition untagged_run : (exn + unit) * World unit :=
  migrate repr untagged_dashboard "MERAKI_DASHBOARD_API_KEY" None true true
    "SRC" "TGT" start.

(** A dashboard on which the update of port 3 fails. *)
Definition port_3_fails : client unit :=
  fun c r =>
    match c with
    | updateDeviceSwitchPort _ port_id _ =>
        if py_eq port_id (PyStr "3") then (inl (APIError "404 Not Found"), r)
        else dashboard 8 8 "MS120-8" "MS120-8" false c r
    | _ => dashboard 8 8 "MS120-8" "MS120-8" false c r
    end.

(** The update of the 8 fetched ports on that dashboard: the calls it is
    about to make, the answers to them, and the run. *)
Definition port_calls : list call :=
  omap (port_update_call "TGT" (heap fetched_8)) (seq 0 8).

Definition port_3_answers : list (exn + pyval) :=
  answers port_3_fails port_calls (remote fetched_8).

Definition port_3_run : (exn + unit) * World unit :=
  update_switch_ports repr port_3_fails (seq 0 8) "TGT" 10 fetched_8.

End Demo.

(** ** Properties *)

(** *** The choice of the RJ45 port count *)

Lemma rj45_count_eq (n : Z) :
  rj45_count n = inr (if 48 <=? n then 48 else if 24 <=? n then 24 else 8).
Proof.
  unfold rj45_count, py_min, rj45_ports. cbn [fold_left]. f_equal.
  repeat match goal with
         | |- context [?a <=? ?b] => destruct (Z.leb_spec a b)
         | |- context [?a <? ?b] => destruct (Z.ltb_spec a b)
         | H : context [?a <? ?b] |- _ => destruct (Z.ltb_spec a b)
         end; lia.
Qed.


Lemma rj45_count_48 (n : Z) : rj45_count n = inr 48 <-> 48 <= n.
Proof.
  rewrite rj45_count_eq.
  destruct (Z.leb_spec 48 n); [|destruct (Z.leb_spec 24 n)];
    (split; [intros [=]; lia | intros ?; f_equal; lia]).
Qed.

(** C5. For a positive port count [n], the selection of lines 166 and 167
    returns 48 from 48 on, 24 from 24 to 47, and 8 below 24.  It is one of 8,
    24 and 48: the largest of the three that is at most [n] when [n] is at
    least 8, and 8, the smallest, otherwise; on 8, 24 and 48 themselves it
    returns [n]. *)
Theorem rj45_count_nearest_at_or_below (n : Z) :
  0 < n ->
  exists c,
    rj45_count n = inr c /\
    c = (if 48 <=? n then 48 else if 24 <=? n then 24 else 8) /\
    (c = 8 \/ c = 24 \/ c = 48) /\
    (8 <= n ->
       c <= n /\ forall x, x = 8 \/ x = 24 \/ x = 48 -> x <= n -> x <= c) /\
    (n < 8 -> c = 8) /\
    (n = 8 \/ n = 24 \/ n = 48 -> c = n).
Proof.
  intros _. eexists. split; [apply rj45_count_eq|]. split; [reflexivity|].
  destruct (Z.leb_spec 48 n); [|destruct (Z.leb_spec 24 n)];
    (split; [lia|]);
    (split; [intros Hn; split; [lia | intros x Hx Hle; lia]|]);
    (split; [intros Hn; lia | intros Hn; lia]).
Qed.

Lemma rj45_count_nearest_at_or_below_witness :
  exists c,
    rj45_count 30 = inr c /\
    c = 24 /\
    (c = 8 \/ c = 24 \/ c = 48) /\
    (8 <= 30 ->
       c <= 30 /\ forall x, x = 8 \/ x = 24 \/ x = 48 -> x <= 30 -> x <= c) /\
    (30 < 8 -> c = 8) /\
    (30 = 8 \/ 30 = 24 \/ 30 = 48 -> c = 30).
Proof. apply (rj45_count_nearest_at_or_below 30). lia. Defined.

(** *** Dictionaries *)

Lemma dict_get_In {A} (k : string) (v : A) d :
  dict_get k d = Some v -> In (k, v) d.
Proof.
  induction d as [|[k' v'] d IH]; cbn; [discriminate|].
  destruct (String.eqb_spec k k') as [->|_]; [intros [= ->]; auto | auto].
Qed.

Lemma dict_get_app_fresh {A} (k : string) (v : A) d :
  dict_get k d = None -> dict_set k v d = d ++ [(k, v)].
Proof.
  induction d as [|[k' v'] d IH]; cbn; [done|].
  destruct (String.eqb_spec k k'); [discriminate|].
  intros H. by rewrite IH.
Qed.

Lemma dict_get_None {A} (k : string) (d : list (string * A)) :
  ~ In k (map fst d) -> dict_get k d = None.
Proof.
  induction d as [|[k' v'] d IH]; cbn; [done|].
  intros H. destruct (String.eqb_spec k k') as [->|_]; [tauto|].
  apply IH. tauto.
Qed.

Lemma dict_set_In {A} (k : string) (v : A) d x :
  In x (dict_set k v d) -> x = (k, v) \/ In x d.
Proof.
  induction d as [|[k' v'] d IH]; cbn.
  - intros [<-|[]]. by left.
  - destruct (String.eqb_spec k k') as [->|_]; cbn.
    + intros [<-|H]; auto.
    + intros [<-|H]; auto. destruct (IH H); auto.
Qed.

Lemma dict_of_items_In {A} (items : list (string * A)) x :
  In x (dict_of_items items) -> In x items.
Proof.
  unfold dict_of_items.
  assert (H : forall acc, In x (fold_left
              (fun d kv => dict_set (fst kv) (snd kv) d) items acc) ->
            In x acc \/ In x items).
  { induction items as [|[k v] items IH]; cbn; intros acc; [auto|].
    intros Hx. destruct (IH _ Hx) as [Hacc|]; [|auto].
    destruct (dict_set_In _ _ _ _ Hacc); auto. }
  intros Hx. destruct (H _ Hx) as [[]|]; auto.
Qed.

(** Items with distinct keys are a dictionary as they stand. *)
Lemma dict_of_items_NoDup {A} (items : list (string * A)) :
  NoDup (map fst items) -> dict_of_items items = items.
Proof.
  unfold dict_of_items.
  assert (H : forall acc, NoDup (map fst (acc ++ items)) ->
            fold_left (fun d kv => dict_set (fst kv) (snd kv) d) items acc
            = acc ++ items).
  { induction items as [|[k v] items IH]; cbn [fold_left]; intros acc Hnd.
    - by rewrite app_nil_r.
    - cbn [fst snd]. rewrite dict_get_app_fresh.
      + rewrite IH; rewrite <- app_assoc; [done|exact Hnd].
      + apply dict_get_None. rewrite map_app in Hnd. cbn in Hnd.
        apply NoDup_app in Hnd as (_ & Hdisj & _).
        intros Hin. apply (Hdisj k); [by apply list_elem_of_In|].
        apply list_elem_of_In. by left. }
  intros Hnd. by rewrite H.
Qed.

Lemma NoDup_filter_keys {A} (P : string * A -> bool) (items : list (string * A)) :
  NoDup (map fst items) -> NoDup (map fst (List.filter P items)).
Proof.
  induction items as [|x items IH]; cbn [List.filter map]; [done|].
  rewrite NoDup_cons. intros [Hx Hnd].
  destruct (P x); [|auto].
  cbn [map]. rewrite NoDup_cons. split; [|auto].
  intros Hin. apply Hx. apply list_elem_of_In in Hin.
  apply list_elem_of_In. apply in_map_iff in Hin as (y & <- & Hy).
  apply in_map. by apply filter_In in Hy as [? _].
Qed.

Lemma known_items_keys parameters (items : list (string * pyval)) :
  forallb (fun kv => str_in (fst kv) parameters) (known_items parameters items)
  = true.
Proof.
  apply forallb_forall. intros x Hx. unfold known_items in Hx.
  apply dict_of_items_In in Hx. by apply filter_In in Hx as [_ ?].
Qed.

Lemma known_items_In parameters (items : list (string * pyval)) x :
  In x (known_items parameters items) -> In x items.
Proof.
  intros Hx. apply dict_of_items_In in Hx. by apply filter_In in Hx as [? _].
Qed.

Lemma NoDup_Device_parameters : NoDup Device.parameters.
Proof. apply (bool_decide_unpack _). by vm_compute. Qed.


(** *** Construction and update payloads *)

Lemma arg_unset parameters mapping k :
  unset_in mapping k ->
  default PyNone (dict_get k (known_items parameters mapping)) = PyNone.
Proof.
  intros Hk. destruct (dict_get k (known_items parameters mapping)) as [v|] eqn:E;
    [|done].
  cbn. apply Hk. eapply known_items_In, dict_get_In, E.
Qed.


Lemma Device_items_init kwargs d k v :
  Device.init kwargs = inr d -> In (k, v) (Device.items d) ->
  v = default PyNone (dict_get k kwargs).
Proof.
  unfold Device.init. destruct (forallb _ _); [|discriminate].
  intros [= <-]. unfold Device.items.
  cbn [In Device.name Device.model Device.mac Device.tags Device.lat
       Device.lng Device.address Device.notes Device.floorPlanId].
  intros Hin.
  repeat (destruct Hin as [Hin|Hin]; [injection Hin as <- <-; reflexivity|]).
  destruct Hin.
Qed.

Lemma Port_items_init kwargs p k v :
  Port.init kwargs = inr p -> In (k, v) (Port.items p) ->
  v = default PyNone (dict_get k kwargs).
Proof.
  unfold Port.init. destruct (forallb _ _); [|discriminate].
  intros [= <-]. unfold Port.items.
  cbn [In Port.portId Port.name Port.tags Port.enabled Port.poeEnabled
       Port.type Port.vlan Port.voiceVlan Port.allowedVlans
       Port.isolationEnabled Port.rstpEnabled Port.stpGuard
       Port.linkNegotiation Port.portScheduleId Port.udld
       Port.accessPolicyType Port.accessPolicyNumber Port.macAllowList
       Port.stickyMacAllowList Port.stickyMacAllowListLimit
       Port.stormControlEnabled Port.adaptivePolicyGroupId
       Port.peerSgtCapable Port.flexibleStackingEnabled Port.daiTrusted
       Port.profile].
  intros Hin.
  repeat (destruct Hin as [Hin|Hin]; [injection Hin as <- <-; reflexivity|]).
  destruct Hin.
Qed.

Lemma Device_init_known mapping :
  exists d, Device.init (known_items Device.parameters mapping) = inr d.
Proof. unfold Device.init. rewrite known_items_keys. eauto. Qed.

Lemma Port_init_known mapping :
  exists p, Port.init (known_items Port.parameters mapping) = inr p.
Proof. unfold Port.init. rewrite known_items_keys. eauto. Qed.

Lemma Device_asdict_eq (d : SwitchDevice) dict_factory :
  Device.asdict d dict_factory = dict_factory (Device.items d).
Proof. reflexivity. Qed.

Lemma Port_asdict_eq (p : SwitchPort) dict_factory :
  Port.asdict p dict_factory = dict_factory (Port.items p).
Proof. reflexivity. Qed.

Lemma not_none_items_In (x : list (string * pyval)) k v :
  dict_get k (not_none_items x) = Some v -> In (k, v) x /\ v <> PyNone.
Proof.
  unfold not_none_items. intros E.
  apply dict_get_In, dict_of_items_In, filter_In in E as [Hin Hnn].
  split; [exact Hin|]. intros ->. discriminate Hnn.
Qed.

Lemma not_none_not_portId_items_In (x : list (string * pyval)) k v :
  dict_get k (not_none_not_portId_items x) = Some v ->
  In (k, v) x /\ v <> PyNone /\ k <> "portId".
Proof.
  unfold not_none_not_portId_items. intros E.
  apply dict_get_In, dict_of_items_In, filter_In in E as [Hin Hnn].
  apply andb_prop in Hnn as [Hnn Hk]. cbn [fst snd] in Hnn, Hk.
  split; [exact Hin|]. split.
  - intros ->. discriminate Hnn.
  - intros ->. rewrite String.eqb_refl in Hk. discriminate Hk.
Qed.

(** *** Further facts on dictionaries and records *)

Lemma dict_get_filter_key {A} (q : string -> bool) (d : list (string * A)) k :
  dict_get k (List.filter (fun kv => q (fst kv)) d)
  = if q k then dict_get k d else None.
Proof.
  induction d as [|[k' v] d IH]; cbn [List.filter dict_get fst].
  - by destruct (q k).
  - destruct (q k') eqn:Hq'; cbn [dict_get].
    + destruct (String.eqb_spec k k') as [->|_]; [by rewrite Hq'|exact IH].
    + destruct (String.eqb_spec k k') as [->|_]; [|exact IH].
      rewrite Hq' in IH |- *. exact IH.
Qed.

Lemma dict_get_known_items parameters (mapping : list (string * pyval)) k :
  NoDup (map fst mapping) ->
  dict_get k (known_items parameters mapping)
  = if str_in k parameters then dict_get k mapping else None.
Proof.
  intros Hnd. unfold known_items.
  rewrite dict_of_items_NoDup by (by apply NoDup_filter_keys).
  apply (dict_get_filter_key (fun k => str_in k parameters)).
Qed.

Lemma str_in_In k (names : list string) : In k names -> str_in k names = true.
Proof.
  intros Hin. apply existsb_exists. exists k. split; [exact Hin|].
  apply String.eqb_refl.
Qed.

Lemma Device_items_keys (d : SwitchDevice) :
  map fst (Device.items d) = Device.parameters.
Proof. reflexivity. Qed.


Lemma dict_get_In_NoDup {A} (d : list (string * A)) k v :
  NoDup (map fst d) -> In (k, v) d -> dict_get k d = Some v.
Proof.
  induction d as [|[k' v'] d IH]; cbn [map fst]; [intros _ []|].
  rewrite NoDup_cons. intros [Hk Hnd] [[= -> ->]|Hin]; cbn [dict_get].
  - by rewrite String.eqb_refl.
  - destruct (String.eqb_spec k k') as [->|_]; [|auto].
    exfalso. apply Hk. apply list_elem_of_In. by apply (in_map fst _ (k', v)).
Qed.

Lemma not_none_items_spec (x : list (string * pyval)) k v :
  NoDup (map fst x) ->
  dict_get k (not_none_items x) = Some v <-> In (k, v) x /\ v <> PyNone.
Proof.
  intros Hnd. split; [apply not_none_items_In|].
  intros [Hin Hv]. unfold not_none_items.
  rewrite dict_of_items_NoDup by (by apply NoDup_filter_keys).
  apply dict_get_In_NoDup; [by apply NoDup_filter_keys|].
  apply filter_In. split; [exact Hin|]. cbn [snd]. by destruct v.
Qed.


(** *** [str] of an integer, read back by [int] *)

Lemma digit_val_pretty_N_char (d : N) :
  (d < 10)%N ->
  digit_val (pretty_N_char d) = Some (Z.of_N d) /\
  is_space (pretty_N_char d) = false /\
  Ascii.eqb (pretty_N_char d) "-" = false /\
  Ascii.eqb (pretty_N_char d) "+" = false.
Proof.
  intros Hd.
  assert (d = 0 \/ d = 1 \/ d = 2 \/ d = 3 \/ d = 4 \/ d = 5 \/ d = 6 \/
          d = 7 \/ d = 8 \/ d = 9)%N as Hcases by lia.
  repeat (destruct Hcases as [->|Hcases]; [by vm_compute|]).
  subst d. by vm_compute.
Qed.

Lemma int_digits_digits (ds : list ascii) acc :
  Forall is_digit ds -> int_digits acc ds = Some (digits_value acc ds).
Proof.
  intros Hds. revert acc.
  induction Hds as [|c ds [v Hv] _ IH]; intros acc; [reflexivity|].
  cbn [int_digits digits_value fold_left]. rewrite Hv. cbn [default].
  apply IH.
Qed.

Lemma digits_value_app acc ds ds' :
  digits_value acc (ds ++ ds') = digits_value (digits_value acc ds) ds'.
Proof. apply fold_left_app. Qed.

Lemma list_ascii_of_string_String c s :
  list_ascii_of_string (String c s) = c :: list_ascii_of_string s.
Proof. reflexivity. Qed.

(** The digits that [pretty_N_go] puts in front of [s]. *)
Lemma pretty_N_go_digits (x : N) (s : string) :
  exists ds,
    list_ascii_of_string (pretty_N_go x s) = ds ++ list_ascii_of_string s /\
    Forall is_digit ds /\
    Forall (fun c => is_space c = false /\ Ascii.eqb c "-" = false /\
                     Ascii.eqb c "+" = false) ds /\
    (forall acc, digits_value acc ds = acc * 10 ^ Z.of_nat (length ds) + Z.of_N x) /\
    ((0 < x)%N -> ds <> []).
Proof.
  revert s. induction (N.lt_wf_0 x) as [x _ IH]. intros s.
  destruct (N.eq_dec x 0%N) as [->|Hx].
  - exists []. rewrite pretty_N_go_0. cbn.
    repeat split; try constructor; intros; lia.
  - assert (0 < x)%N as Hpos by lia.
    rewrite pretty_N_go_step by exact Hpos.
    destruct (IH (x `div` 10)%N) with
      (s := String (pretty_N_char (x `mod` 10)) s)
      as (ds & Hchars & Hdig & Hplain & Hval & _).
    { by apply N.div_lt. }
    assert (x `mod` 10 < 10)%N as Hmod by (apply N.mod_lt; lia).
    destruct (digit_val_pretty_N_char _ Hmod) as (Hv & Hsp & Hminus & Hplus).
    exists (ds ++ [pretty_N_char (x `mod` 10)]).
    split; [|split; [|split; [|split]]].
    + rewrite Hchars, list_ascii_of_string_String, <- app_assoc. reflexivity.
    + apply Forall_app. split; [exact Hdig|]. repeat constructor. by eexists.
    + apply Forall_app. split; [exact Hplain|]. by repeat constructor.
    + intros acc. rewrite digits_value_app, Hval.
      cbn [digits_value fold_left]. rewrite Hv. cbn [default].
      rewrite length_app. cbn [length].
      replace (Z.of_nat (length ds + 1)) with (Z.of_nat (length ds) + 1) by lia.
      rewrite Z.pow_add_r, Z.pow_1_r by lia.
      assert (Hx10 : Z.of_N x
                     = 10 * Z.of_N (x `div` 10) + Z.of_N (x `mod` 10)).
      { rewrite (N.div_mod x 10) at 1 by lia.
        rewrite N2Z.inj_add, N2Z.inj_mul. reflexivity. }
      rewrite Hx10. unfold id. ring.
    + intros _ Hnil. by destruct ds.
Qed.

Lemma lstrip_plain (cs : list ascii) :
  Forall (fun c => is_space c = false) cs -> lstrip cs = cs.
Proof. intros [|c cs' Hc _]; [reflexivity|]. cbn. by rewrite Hc. Qed.

Lemma strip_plain (cs : list ascii) :
  Forall (fun c => is_space c = false) cs -> strip cs = cs.
Proof.
  intros Hcs. unfold strip. rewrite (lstrip_plain cs Hcs).
  rewrite lstrip_plain; [apply rev_involutive|].
  apply Forall_forall. intros x Hx. apply list_elem_of_In, in_rev in Hx.
  apply (proj1 (Forall_forall _ _) Hcs). by apply list_elem_of_In.
Qed.

Lemma int_of_str_pretty_pos (x : positive) :
  exists c ds,
    list_ascii_of_string (pretty (N.pos x)) = c :: ds /\
    Forall (fun c => is_space c = false) (c :: ds) /\
    Ascii.eqb c "-" = false /\ Ascii.eqb c "+" = false /\
    int_unsigned (c :: ds) = Some (Z.pos x).
Proof.
  unfold pretty, pretty_N. destruct (decide (N.pos x = 0%N)); [discriminate|].
  destruct (pretty_N_go_digits (N.pos x) "")
    as (ds & Hchars & Hdig & Hplain & Hval & Hne).
  cbn [list_ascii_of_string] in Hchars. rewrite app_nil_r in Hchars.
  destruct ds as [|c ds]; [by destruct Hne|].
  exists c, ds. rewrite Hchars.
  apply Forall_cons in Hdig as [[v Hv] Hdig].
  pose proof Hplain as Hplain'. apply Forall_cons in Hplain' as [(_ & Hm & Hp) _].
  split; [reflexivity|]. split.
  { eapply Forall_impl; [exact Hplain|]. by intros ? (? & _). }
  split; [exact Hm|]. split; [exact Hp|].
  unfold int_unsigned. rewrite Hv, (int_digits_digits ds v Hdig).
  f_equal. specialize (Hval 0). cbn [digits_value fold_left] in Hval.
  rewrite Hv in Hval. cbn [default] in Hval.
  change (0 * 10 + id v) with v in Hval.
  unfold digits_value. rewrite Hval. lia.
Qed.

(** [int(str(z))] is [z]. *)
Lemma int_of_str_str_of_int (z : Z) : int_of_str (str_of_int z) = Some z.
Proof.
  destruct z as [|x|x].
  - reflexivity.
  - destruct (int_of_str_pretty_pos x) as (c & ds & Hchars & Hplain & Hm & Hp & Hval).
    change (str_of_int (Z.pos x)) with (pretty (N.pos x)).
    unfold int_of_str. rewrite Hchars, (strip_plain _ Hplain), Hm, Hp.
    exact Hval.
  - destruct (int_of_str_pretty_pos x) as (c & ds & Hchars & Hplain & Hm & Hp & Hval).
    change (str_of_int (Z.neg x)) with (String "-" (pretty (N.pos x))).
    unfold int_of_str. rewrite list_ascii_of_string_String, Hchars, strip_plain.
    + change (Ascii.eqb "-" "-") with true. cbv iota. rewrite Hval. reflexivity.
    + constructor; [reflexivity|exact Hplain].
Qed.

(** *** Renumbered ports *)

Lemma py_int_str_of_int (z : Z) : py_int (PyStr (str_of_int z)) = inr z.
Proof. cbn [py_int]. by rewrite int_of_str_str_of_int. Qed.

Lemma other_fields_set_portId (p : SwitchPort) v :
  other_fields (Port.set_portId p v) = other_fields p.
Proof. destruct p. vm_compute. reflexivity. Qed.

(** A port whose number has been set to [str(n)] carries that text, which
    [int] reads as [n], and has its other fields as before. *)
Lemma renumbered (p : SwitchPort) (n : Z) :
  Port.portId (Port.set_portId p (PyStr (str_of_int n))) = PyStr (str_of_int n) /\
  py_int (Port.portId (Port.set_portId p (PyStr (str_of_int n)))) = inr n /\
  other_fields (Port.set_portId p (PyStr (str_of_int n))) = other_fields p.
Proof.
  split; [reflexivity|]. split; [apply py_int_str_of_int|].
  apply other_fields_set_portId.
Qed.

(** *** Membership of a string in a list *)

Lemma py_eq_str (s : string) (v : pyval) :
  py_eq (PyStr s) v = true <-> v = PyStr s.
Proof.
  destruct v as [| | | |t| |]; cbn [py_eq];
    try (split; [discriminate | intros [=]]).
  rewrite String.eqb_eq. split; [by intros ->|by intros [= ->]].
Qed.

Lemma contains_str (l : list pyval) (s : string) :
  (In (PyStr s) l -> py_contains (PyList l) (PyStr s) = inr true) /\
  (~ In (PyStr s) l -> py_contains (PyList l) (PyStr s) = inr false).
Proof.
  cbn [py_contains]. split.
  - intros Hin. f_equal. apply existsb_exists. exists (PyStr s).
    split; [exact Hin|]. by apply py_eq_str.
  - intros Hout. f_equal.
    destruct (existsb (py_eq (PyStr s)) l) eqn:E; [|reflexivity].
    apply existsb_exists in E as (x & Hx & He). apply py_eq_str in He.
    subst x. contradiction.
Qed.

Section Properties.

Context {R : Type}.
Variable py_repr : pyval -> string.

Implicit Types (w : World R) (dashboard_api : client R).
Implicit Types (source_ports : list addr) (target_port_count : Z).

(** *** Running a computation step by step *)

Lemma bind_ok {A B} (m : M R A) (k : A -> M R B) w a w' :
  m w = (inr a, w') -> bind m k w = k a w'.
Proof. unfold bind. intros ->. reflexivity. Qed.

(** *** Rejected port lists *)

(** C7. Whatever the target port count, an empty source port list makes
    [update_switch_ports] raise the exception for a source without ports, and
    the world is left as it was: no port of the target is updated. *)
Theorem update_switch_ports_empty_source dashboard_api target_serial
    target_port_count w :
  update_switch_ports py_repr dashboard_api [] target_serial target_port_count w
  = (inl (ClickException
            ("No ports found on source switch " +:+ target_serial +:+ ".")),
     w).
Proof. reflexivity. Qed.

(** C6. When the source list is not empty and the two RJ45 counts differ
    without being 24 to 48 or 48 to 24, [update_switch_ports] raises the
    exception for incompatible port counts, and the world is left as it was:
    no port of the target is updated. *)
Theorem update_switch_ports_incompatible dashboard_api source_ports
    target_serial target_port_count w source_rj45_count target_rj45_count :
  source_ports <> [] ->
  rj45_count (Z.of_nat (length source_ports)) = inr source_rj45_count ->
  rj45_count target_port_count = inr target_rj45_count ->
  source_rj45_count <> target_rj45_count ->
  ~ (source_rj45_count = 24 /\ target_rj45_count = 48) ->
  ~ (source_rj45_count = 48 /\ target_rj45_count = 24) ->
  update_switch_ports py_repr dashboard_api source_ports target_serial
    target_port_count w
  = (inl (BadParameter
            ("Incompatible port counts (" +:+ str_of_int source_rj45_count
               +:+ "-port switch -> " +:+ str_of_int target_rj45_count
               +:+ "-port switch).")),
     w).
Proof.
  intros Hne Hs Ht Hdiff H2448 H4824.
  unfold update_switch_ports, adjusted_source_ports.
  destruct (Z.eqb_spec (Z.of_nat (length source_ports)) 0) as [H0|_].
  { destruct source_ports; [congruence | cbn in H0; lia]. }
  rewrite Hs, Ht. cbn [lift].
  unfold bind at 1. unfold bind at 1. cbn [ret].
  unfold bind at 1. cbn [ret].
  destruct (Z.eqb_spec source_rj45_count target_rj45_count) as [|_]; [congruence|].
  cbn [negb].
  destruct (Z.eqb_spec source_rj45_count 24), (Z.eqb_spec target_rj45_count 48),
    (Z.eqb_spec source_rj45_count 48), (Z.eqb_spec target_rj45_count 24);
    cbn [andb]; try tauto; try lia; reflexivity.
Qed.

(** *** The trace only grows *)

Local Abbreviation extends := (extends (R:=R)).

Lemma extends_ret {A} (a : A) : extends (ret a).
Proof. intros w. exists []. cbn. by rewrite app_nil_r. Qed.

Lemma extends_raise {A} (e : exn) : extends (@raise R A e).
Proof. intros w. exists []. cbn. by rewrite app_nil_r. Qed.

Lemma extends_lift {A} (r : exn + A) : extends (lift r).
Proof. destruct r; [apply extends_raise | apply extends_ret]. Qed.

Lemma extends_bind {A B} (m : M R A) (k : A -> M R B) :
  extends m -> (forall a, extends (k a)) -> extends (bind m k).
Proof.
  intros Hm Hk w. unfold bind. destruct (Hm w) as [t Ht].
  destruct (m w) as [[e|a] w']; cbn in *; [eauto|].
  destruct (Hk a w') as [t' Ht']. exists (t ++ t').
  by rewrite Ht', Ht, app_assoc.
Qed.

Lemma extends_try_except {A} (body : M R A) catches handler :
  extends body -> (forall e, extends (handler e)) ->
  extends (try_except body catches handler).
Proof.
  intros Hm Hk w. unfold try_except. destruct (Hm w) as [t Ht].
  destruct (body w) as [[e|a] w']; cbn in *; [|eauto].
  destruct (catches e); cbn; [|eauto].
  destruct (Hk e w') as [t' Ht']. exists (t ++ t').
  by rewrite Ht', Ht, app_assoc.
Qed.

Lemma extends_echo line : extends (echo line).
Proof. intros w. by exists [Echo line]. Qed.

Lemma extends_confirm prompt : extends (confirm prompt).
Proof.
  intros w. exists [Confirm prompt]. unfold confirm.
  by destruct (stdin w) as [|[] ?].
Qed.

Lemma extends_invoke dashboard_api c : extends (invoke dashboard_api c).
Proof.
  intros w. exists [Called c]. unfold invoke.
  by destruct (dashboard_api c (remote w)).
Qed.

Lemma extends_alloc p : extends (alloc p).
Proof. intros w. exists []. cbn. by rewrite app_nil_r. Qed.

Lemma extends_load a : extends (load a).
Proof.
  intros w. exists []. unfold load.
  destruct (heap w !! a); cbn; by rewrite app_nil_r.
Qed.

Lemma extends_store a p : extends (store a p).
Proof.
  intros w. exists []. unfold store.
  destruct (heap w !! a); cbn; by rewrite app_nil_r.
Qed.

Lemma extends_for_each {A} (l : list A) body :
  (forall x, extends (body x)) -> extends (for_each l body).
Proof.
  intros Hb. induction l as [|x l IH]; cbn [for_each].
  - apply extends_ret.
  - apply extends_bind; auto.
Qed.

Lemma extends_for_fold {A S} (l : list A) (s : S) body :
  (forall s x, extends (body s x)) -> extends (for_fold l s body).
Proof.
  intros Hb. revert s. induction l as [|x l IH]; intros s; cbn [for_fold].
  - apply extends_ret.
  - apply extends_bind; auto.
Qed.

Ltac extends_step :=
  lazymatch goal with
  | |- extends (ret _) => apply extends_ret
  | |- extends (raise _) => apply extends_raise
  | |- extends (lift _) => apply extends_lift
  | |- extends (echo _) => apply extends_echo
  | |- extends (confirm _) => apply extends_confirm
  | |- extends (invoke _ _) => apply extends_invoke
  | |- extends (alloc _) => apply extends_alloc
  | |- extends (load _) => apply extends_load
  | |- extends (store _ _) => apply extends_store
  | |- extends (bind _ _) => apply extends_bind
  | |- extends (try_except _ _ _) => apply extends_try_except
  | |- extends (for_each _ _) => apply extends_for_each
  | |- extends (for_fold _ _ _) => apply extends_for_fold
  | |- extends (if ?b then _ else _) => destruct b
  | |- extends (match ?o with Some _ => _ | None => _ end) => destruct o
  | |- extends (let _ := _ in _) => cbv zeta
  | |- forall _, _ => intro
  end.

Lemma extends_update_port dashboard_api target_serial port :
  extends (update_port py_repr dashboard_api target_serial port).
Proof. unfold update_port. repeat extends_step. Qed.

Lemma extends_adjusted_source_ports source_ports target_serial
    target_port_count :
  extends (adjusted_source_ports source_ports target_serial target_port_count).
Proof.
  unfold adjusted_source_ports, shift_portId, duplicate_first.
  repeat extends_step.
Qed.

Lemma extends_update_switch_ports dashboard_api source_ports target_serial
    target_port_count :
  extends (update_switch_ports py_repr dashboard_api source_ports
             target_serial target_port_count).
Proof.
  unfold update_switch_ports.
  apply extends_bind; [apply extends_adjusted_source_ports|].
  intros l. apply extends_for_each. apply extends_update_port.
Qed.

Lemma extends_update_switch_config dashboard_api source_device target_serial :
  extends (update_switch_config py_repr dashboard_api source_device
             target_serial).
Proof. unfold update_switch_config. repeat extends_step. Qed.

(** *** Cloning between switches of one model *)

(** C1, as the code has it. When the apply steps of [migrate] are reached
    with equal models and an organization identifier, the clone call is the
    first thing that happens; if that call raises, the run ends there with
    the cloning error, and the trace holds nothing after the clone call: no
    port and no device of the target is updated. *)
Theorem migrate_apply_clone_failure_aborts dashboard_api organization_id
    source_serial target_serial source_device target_device
    source_ports target_ports w :
  py_eq (Device.model source_device) (Device.model target_device) = true ->
  let clone :=
    cloneOrganizationSwitchDevices organization_id source_serial
      [target_serial] in
  let run :=
    migrate_apply py_repr dashboard_api (Some organization_id) source_serial
      target_serial source_device target_device source_ports target_ports w in
  (exists t, trace (snd run) = trace w ++ Called clone :: t) /\
  (forall e remote',
     dashboard_api clone (remote w) = (inl e, remote') ->
     run = (inl (ClickException
                   ("Error cloning configuration from " +:+ source_serial
                      +:+ " to " +:+ target_serial +:+ ".")),
            emit (Called clone) (with_remote remote' w))).
Proof.
  intros Hmodel clone run. subst run. unfold migrate_apply. rewrite Hmodel.
  split.
  - unfold bind at 1. unfold clone_config, try_except, bind at 1, invoke.
    fold clone.
    destruct (dashboard_api clone (remote w)) as [[e|response] remote'];
      cbn [Exception raise fst snd].
    + exists []. reflexivity.
    + cbn [echo].
      match goal with
      | |- context [bind ?m ?k ?w'] =>
          destruct (extends_bind m k) with (w := w') as [t Ht]
      end.
      * apply extends_update_switch_ports.
      * intros _. apply extends_update_switch_config.
      * exists (Echo (py_str py_repr response) :: t).
        rewrite Ht. cbn [emit trace]. by rewrite <- !app_assoc.
  - intros e remote' Hfail.
    unfold bind at 1. unfold clone_config, try_except, bind at 1, invoke.
    fold clone. rewrite Hfail. reflexivity.
Qed.

(** *** The checks on the target device *)

(** C2. The checks run in the order name, tag, confirmation, and stop at the
    first that fails.  A target whose name equals its mac is refused as in
    use whatever its tags are, with nothing printed or asked.  A target not
    in use whose tags are a list without "undeployed" is refused for that,
    with nothing asked.  A target not in use whose tags are a list with
    "undeployed" is asked for confirmation, unless [yes] is set: then nothing
    is asked and the run goes on.  A target not in use whose tags are [None]
    is not refused for a missing tag: the membership test raises
    [TypeError], with nothing asked. *)
Theorem precondition_checks_order yes source_serial target_serial
    target_device w :
  (py_eq (Device.name target_device) (Device.mac target_device) = true ->
   precondition_checks yes source_serial target_serial target_device w
   = (inl (ClickException (in_use_message target_serial)), w)) /\
  (py_eq (Device.name target_device) (Device.mac target_device) = false ->
   forall tags, Device.tags target_device = PyList tags ->
     (~ In (PyStr "undeployed") tags ->
      precondition_checks yes source_serial target_serial target_device w
      = (inl (ClickException (not_undeployed_message target_serial)), w)) /\
     (In (PyStr "undeployed") tags ->
      precondition_checks yes source_serial target_serial target_device w
      = if yes
        then (inr tt,
              emit (Echo ("Copying configuration from " +:+ source_serial
                            +:+ " to " +:+ target_serial +:+ "...")) w)
        else confirm (confirm_prompt source_serial target_serial) w)) /\
  (py_eq (Device.name target_device) (Device.mac target_device) = false ->
   Device.tags target_device = PyNone ->
   precondition_checks yes source_serial target_serial target_device w
   = (inl TypeError, w)).
Proof.
  unfold precondition_checks. split; [|split].
  - intros ->. reflexivity.
  - intros -> tags ->. split.
    + intros Hout. unfold bind.
      rewrite (proj2 (contains_str tags "undeployed") Hout). reflexivity.
    + intros Hin. unfold bind.
      rewrite (proj1 (contains_str tags "undeployed") Hin).
      destruct yes; reflexivity.
  - intros -> ->. reflexivity.
Qed.

(** C9. A target whose [tags] field is [None] and whose name differs from
    its mac makes the tag check raise [TypeError]: the membership test has
    nothing to iterate over, and the refusal for a missing tag is not
    reached. *)
Theorem precondition_checks_unset_tags yes source_serial target_serial
    target_device w :
  Device.tags target_device = PyNone ->
  py_eq (Device.name target_device) (Device.mac target_device) = false ->
  precondition_checks yes source_serial target_serial target_device w
  = (inl TypeError, w).
Proof.
  intros Htags Hname. unfold precondition_checks.
  rewrite Hname, Htags. reflexivity.
Qed.

(** *** The device update *)

(** C10. When the source device has no name, [update_switch_config] names it
    "None-clone" before serializing, so the payload it sends to the target
    has the key [name], with that string. *)
Theorem update_switch_config_unset_name dashboard_api source_device
    target_serial w :
  Device.name source_device = PyNone ->
  let update_device_kwargs :=
    Device.asdict (Device.set_name source_device (PyStr "None-clone"))
      not_none_items in
  dict_get "name" update_device_kwargs = Some (PyStr "None-clone") /\
  exists t,
    trace (snd (update_switch_config py_repr dashboard_api source_device
                  target_serial w))
    = trace w
      ++ [Echo ("---- Updating switch configuration for " +:+ target_serial
                  +:+ " ----");
          Called (updateDevice target_serial update_device_kwargs)]
      ++ t.
Proof.
  intros Hname kwargs. split.
  - subst kwargs. unfold Device.asdict, not_none_items.
    rewrite dict_of_items_NoDup.
    + cbn. reflexivity.
    + apply NoDup_filter_keys. apply NoDup_Device_parameters.
  - unfold update_switch_config. rewrite Hname. cbn [py_str].
    change ("None" +:+ "-clone") with "None-clone". fold kwargs.
    unfold bind at 1. cbn [echo].
    unfold try_except, bind, invoke. cbn [remote emit with_remote trace].
    destruct (dashboard_api (updateDevice target_serial kwargs) (remote w))
      as [[e|response] remote'].
    + exists []. cbn. by rewrite <- !app_assoc.
    + exists [Echo (py_str py_repr response)]. cbn. by rewrite <- !app_assoc.
Qed.

(** *** The payloads and the fields that are unset *)

Lemma Device_items_set_name (d : SwitchDevice) v :
  Device.items (Device.set_name d v) = ("name", v) :: tail (Device.items d).
Proof. reflexivity. Qed.

(** C8. Take a field that is unset in a mapping.  The port built from the
    mapping, the way [get_switch_ports] builds it, serializes to an update
    payload without that field, and the payload of a port never has the key
    [portId].  The device built from the mapping, the way [get_switch_config]
    builds it, is renamed before it is serialized: the one update call of
    [update_switch_config] carries a payload without the field, unless the
    field is [name], which is always sent, as the name of the device followed
    by "-clone", and so as "None-clone" when it is the name that is unset. *)
Theorem payload_omits_unset_fields (mapping : list (string * pyval))
    (k : string) dashboard_api target_serial w :
  unset_in mapping k ->
  (exists d update_device_kwargs t,
     Device.init (known_items Device.parameters mapping) = inr d /\
     trace (snd (update_switch_config py_repr dashboard_api d target_serial w))
     = trace w ++ t /\
     calls t = [updateDevice target_serial update_device_kwargs] /\
     (k <> "name" -> dict_get k update_device_kwargs = None) /\
     dict_get "name" update_device_kwargs
     = Some (PyStr (py_str py_repr (Device.name d) +:+ "-clone")) /\
     (k = "name" ->
      dict_get "name" update_device_kwargs = Some (PyStr "None-clone"))) /\
  (exists p,
     Port.init (known_items Port.parameters mapping) = inr p /\
     dict_get k (Port.asdict p not_none_not_portId_items) = None) /\
  (forall p : SwitchPort,
     dict_get "portId" (Port.asdict p not_none_not_portId_items) = None).
Proof.
  intros Hk. split; [|split].
  - destruct (Device_init_known mapping) as [d Hd].
    set (renamed := Device.set_name d
           (PyStr (py_str py_repr (Device.name d) +:+ "-clone"))).
    set (kwargs := Device.asdict renamed not_none_items).
    assert (Hname : dict_get "name" kwargs
                    = Some (PyStr (py_str py_repr (Device.name d) +:+ "-clone"))).
    { unfold kwargs. rewrite Device_asdict_eq. apply not_none_items_spec.
      - rewrite Device_items_keys. apply NoDup_Device_parameters.
      - split; [by left|discriminate]. }
    assert (Htrace : exists t,
               trace (snd (update_switch_config py_repr dashboard_api d
                             target_serial w)) = trace w ++ t /\
               calls t = [updateDevice target_serial kwargs]).
    { remember (update_switch_config py_repr dashboard_api d target_serial w)
        as run eqn:Hrun.
      unfold update_switch_config in Hrun. cbv zeta in Hrun.
      fold renamed in Hrun. fold kwargs in Hrun.
      unfold bind at 1, echo, try_except, bind, invoke in Hrun.
      cbn [remote emit with_remote] in Hrun.
      destruct (dashboard_api (updateDevice target_serial kwargs) (remote w))
        as [[e|response] remote']; subst run;
        cbn [Exception raise echo fst snd trace emit with_remote];
        eexists; rewrite <- ?app_assoc; split; reflexivity. }
    destruct Htrace as (t & Ht & Hc). exists d, kwargs, t.
    split; [exact Hd|]. split; [exact Ht|]. split; [exact Hc|].
    split; [|split; [exact Hname|]].
    + intros Hne. destruct (dict_get k kwargs) as [v|] eqn:E; [|reflexivity].
      exfalso. unfold kwargs in E. rewrite Device_asdict_eq in E.
      apply not_none_items_In in E as [Hin Hnn]. apply Hnn.
      unfold renamed in Hin. rewrite Device_items_set_name in Hin.
      destruct Hin as [Hin|Hin]; [injection Hin as Hkk _; congruence|].
      assert (Hd' : In (k, v) (Device.items d)) by (right; exact Hin).
      apply (Device_items_init _ _ _ _ Hd) in Hd'.
      rewrite (arg_unset _ _ _ Hk) in Hd'. exact Hd'.
    + intros ->. rewrite Hname.
      assert (Hnone : Device.name d = PyNone).
      { rewrite <- (arg_unset Device.parameters _ _ Hk).
        apply (Device_items_init _ _ _ _ Hd). by left. }
      rewrite Hnone. reflexivity.
  - destruct (Port_init_known mapping) as [p Hp]. exists p.
    split; [exact Hp|]. rewrite Port_asdict_eq.
    destruct (dict_get k (not_none_not_portId_items (Port.items p)))
      as [v|] eqn:E; [|reflexivity].
    exfalso. apply not_none_not_portId_items_In in E as (Hin & Hnn & _).
    apply Hnn. apply (Port_items_init _ _ _ _ Hp) in Hin.
    rewrite (arg_unset _ _ _ Hk) in Hin. exact Hin.
  - intros p. rewrite Port_asdict_eq.
    destruct (dict_get "portId" (not_none_not_portId_items (Port.items p)))
      as [v|] eqn:E; [|reflexivity].
    exfalso. apply not_none_not_portId_items_In in E as (_ & _ & Hne).
    apply Hne. reflexivity.
Qed.

(** *** Renumbering and duplicating ports in the store *)

Ltac run_step tac :=
  etransitivity; [apply bind_ok; tac | cbv beta].

Lemma with_heap_with_heap (h h' : list SwitchPort) w :
  with_heap h' (with_heap h w) = with_heap h' w.
Proof. reflexivity. Qed.

Lemma with_heap_heap w : with_heap (heap w) w = w.
Proof. by destruct w. Qed.

Lemma shift_portId_run delta a p k w :
  heap w !! a = Some p -> py_int (Port.portId p) = inr k ->
  shift_portId delta a w
  = (inr tt,
     with_heap (<[a := Port.set_portId p (PyStr (str_of_int (k + delta)))]>
                  (heap w)) w).
Proof.
  intros Hp Hk. unfold shift_portId.
  run_step ltac:(unfold load; rewrite Hp; reflexivity).
  run_step ltac:(rewrite Hk; reflexivity).
  unfold store. rewrite Hp. reflexivity.
Qed.

Lemma for_each_shift_portId delta (l : list addr) w :
  NoDup l ->
  (forall a, In a l ->
     exists p k, heap w !! a = Some p /\ py_int (Port.portId p) = inr k) ->
  exists h',
    for_each l (shift_portId delta) w = (inr tt, with_heap h' w) /\
    length h' = length (heap w) /\
    (forall a, ~ In a l -> h' !! a = heap w !! a) /\
    (forall a p k, In a l -> heap w !! a = Some p ->
       py_int (Port.portId p) = inr k ->
       h' !! a = Some (Port.set_portId p (PyStr (str_of_int (k + delta))))).
Proof.
  revert w. induction l as [|a l IH]; intros w Hnd Hnum.
  - exists (heap w). cbn [for_each]. unfold ret. rewrite with_heap_heap.
    split; [reflexivity|]. split; [reflexivity|].
    split; [auto | intros a p k []].
  - apply NoDup_cons in Hnd as [Hal Hnd].
    destruct (Hnum a) as (p & k & Hp & Hk); [by left|].
    set (h1 := <[a := Port.set_portId p (PyStr (str_of_int (k + delta)))]> (heap w)).
    assert (Hother : forall b, b <> a -> h1 !! b = heap w !! b).
    { intros b Hb. unfold h1. by rewrite list_lookup_insert_ne. }
    destruct (IH (with_heap h1 w) Hnd) as (h' & Hrun & Hlen & Hout & Hin).
    { intros b Hb. destruct (Hnum b) as (q & j & Hq & Hj); [by right|].
      exists q, j. split; [|done]. cbn [heap with_heap]. rewrite Hother; [done|].
      intros ->. apply Hal. by apply list_elem_of_In. }
    exists h'. cbn [for_each].
    split; [|split; [|split]].
    + run_step ltac:(apply (shift_portId_run delta a p k w Hp Hk)).
      fold h1. rewrite Hrun. by rewrite with_heap_with_heap.
    + rewrite Hlen. cbn [heap with_heap]. unfold h1. by rewrite length_insert.
    + intros b Hb. rewrite Hout; [|cbn in Hb; tauto].
      cbn [heap with_heap]. apply Hother. cbn in Hb. intros ->. tauto.
    + intros b q j [<-|Hb] Hq Hj.
      * rewrite Hout; [|by rewrite <- list_elem_of_In].
        cbn [heap with_heap]. unfold h1.
        assert (q = p) as -> by congruence. assert (j = k) as -> by congruence.
        apply list_lookup_insert_eq. by apply lookup_lt_Some in Hp.
      * apply Hin; [done| |done]. cbn [heap with_heap]. rewrite Hother; [done|].
        intros ->. apply Hal. by apply list_elem_of_In.
Qed.



(** *** The port lists that [get_switch_ports] returns *)

(** The list holds as many new objects as the response had ports, one after
    the other in the store: they are distinct and all live. *)
Lemma get_switch_ports_fresh dashboard_api serial w ports w' :
  get_switch_ports dashboard_api serial w = (inr ports, w') ->
  ports = seq (length (heap w)) (length ports) /\
  ports <> [] /\
  length (heap w') = (length (heap w) + length ports)%nat.
Proof.
  unfold get_switch_ports, try_except.
  destruct (bind _ _ w) as [[e|ports0] w0] eqn:Hbody; [discriminate|].
  intros [= -> ->]. revert Hbody. unfold bind at 1, invoke.
  destruct (dashboard_api _ (remote w)) as [[e|response] remote']; [discriminate|].
  set (w1 := emit _ _). assert (Hw1 : heap w1 = heap w) by reflexivity.
  rewrite <- Hw1. clearbody w1. clear Hw1.
  unfold bind at 1. destruct (py_iter response) as [e|elements]; [discriminate|].
  cbn [lift ret]. unfold bind at 1.
  set (body := fun (ports : list addr) (port : pyval) => _).
  destruct (for_fold elements [] body w1) as [[e|ports1] w2] eqn:Hloop;
    [discriminate|].
  destruct (Nat.eqb_spec (length ports1) 0) as [|Hne]; [discriminate|].
  intros [= -> ->].
  assert (Hinv : forall els acc wa ps wb,
             for_fold els acc body wa = (inr ps, wb) ->
             exists k, ps = acc ++ seq (length (heap wa)) k /\
                       length (heap wb) = (length (heap wa) + k)%nat).
  { induction els as [|el els IH]; intros acc wa ps wb; cbn [for_fold].
    - intros [= -> ->]. exists 0%nat. cbn. by rewrite app_nil_r, Nat.add_0_r.
    - unfold bind at 1. unfold body at 1. unfold bind at 1.
      destruct (py_items el) as [e|items]; [discriminate|]. cbn [lift ret].
      unfold bind at 1.
      destruct (Port.init (known_items Port.parameters items)) as [e|p];
        [discriminate|].
      cbn [lift ret]. unfold bind at 1, alloc, ret.
      intros Hrest. apply IH in Hrest as (k & -> & Hk).
      cbn [heap with_heap] in Hk |- *. rewrite length_app in Hk |- *.
      cbn [length] in Hk |- *. exists (S k). rewrite <- app_assoc. cbn [seq app].
      split; [do 3 f_equal; lia | lia]. }
  apply Hinv in Hloop as (k & Hports & Hk). cbn [app] in Hports.
  assert (Hlen : length ports = k) by (by rewrite Hports, length_seq).
  rewrite Hlen. split; [exact Hports|]. split; [|exact Hk].
  intros Hnil. apply Hne. by rewrite Hnil.
Qed.

Lemma get_switch_ports_distinct_live dashboard_api serial w ports w' :
  get_switch_ports dashboard_api serial w = (inr ports, w') ->
  NoDup ports /\ forall a, In a ports -> is_Some (heap w' !! a).
Proof.
  intros H. apply get_switch_ports_fresh in H as (Hports & _ & Hlen).
  rewrite Hports. split; [apply NoDup_seq|].
  intros a Ha. apply in_seq in Ha. apply lookup_lt_is_Some. lia.
Qed.

(** *** From a 24-port source to a 48-port target *)


(** *** From a 48-port source to a 24-port target *)

(** C4. The source list holds distinct port objects, its RJ45 count is 48,
    that of the target is 24, and every port after the first 48 has a port
    number that [int] reads.  Then the adjusted list is the first 24 source
    ports followed by the ports after the first 48.  The first 24 ports are
    as they were.  Every port after the first 48 has the port number
    [str(k - 24)], where [k] is the number it had, and its other fields as
    before.  None of the source ports 25 to 48 is in the list. *)
Theorem adjusted_source_ports_48_to_24 source_ports target_serial
    target_port_count w :
  NoDup source_ports ->
  rj45_count (Z.of_nat (length source_ports)) = inr 48 ->
  rj45_count target_port_count = inr 24 ->
  (forall a, In a (drop 48 source_ports) ->
     exists p k, heap w !! a = Some p /\ py_int (Port.portId p) = inr k) ->
  exists h',
    adjusted_source_ports source_ports target_serial target_port_count w
    = (inr (take 24 source_ports ++ drop 48 source_ports), with_heap h' w) /\
    length (take 24 source_ports) = 24%nat /\
    length h' = length (heap w) /\
    (forall a, In a (take 24 source_ports) -> h' !! a = heap w !! a) /\
    (forall a p k, In a (drop 48 source_ports) -> heap w !! a = Some p ->
       py_int (Port.portId p) = inr k ->
       exists q : SwitchPort,
         h' !! a = Some q /\
         Port.portId q = PyStr (str_of_int (k - 24)) /\
         py_int (Port.portId q) = inr (k - 24) /\
         other_fields q = other_fields p) /\
    (forall a, In a (take 24 (drop 24 source_ports)) ->
       ~ In a (take 24 source_ports ++ drop 48 source_ports)).
Proof.
  intros Hnd Hs Ht Hnum.
  apply rj45_count_48 in Hs as Hlen.
  assert (Hparts : NoDup (take 24 source_ports
                            ++ take 24 (drop 24 source_ports)
                            ++ drop 48 source_ports)).
  { replace (drop 48 source_ports) with (drop 24 (drop 24 source_ports))
      by (by rewrite drop_drop).
    by rewrite !take_drop. }
  apply NoDup_app in Hparts as (_ & Hdisj1 & Hparts).
  apply NoDup_app in Hparts as (_ & Hdisj2 & Hnd3).
  destruct (for_each_shift_portId (-24) (drop 48 source_ports) w Hnd3 Hnum)
    as (h' & Hrun & Hlen' & Hout & Hin).
  exists h'.
  split; [|split; [|split; [|split; [|split]]]].
  - unfold adjusted_source_ports. cbv zeta.
    destruct (Z.eqb_spec (Z.of_nat (length source_ports)) 0) as [H0|_]; [lia|].
    run_step ltac:(rewrite Hs; reflexivity).
    run_step ltac:(rewrite Ht; reflexivity).
    change (negb (48 =? 24)) with true. change ((48 =? 24) && (24 =? 48)) with false.
    change ((48 =? 48) && (24 =? 24)) with true.
    change (Z.to_nat 48) with 48%nat. cbv iota.
    run_step ltac:(run_step ltac:(exact Hrun); reflexivity).
    unfold ret. rewrite take_take. reflexivity.
  - rewrite length_take. lia.
  - exact Hlen'.
  - intros a Ha. apply Hout. intros Hb.
    apply (Hdisj1 a); [by apply list_elem_of_In|].
    apply list_elem_of_In, in_or_app. by right.
  - intros a p k Ha Hp Hk.
    exists (Port.set_portId p (PyStr (str_of_int (k - 24)))).
    split; [|exact (renumbered p (k - 24))].
    change (k - 24) with (k + -24). by apply Hin.
  - intros a Ha Hb. apply in_app_or in Hb as [Hb|Hb].
    + apply (Hdisj1 a); [by apply list_elem_of_In|].
      apply list_elem_of_In, in_or_app. by left.
    + apply (Hdisj2 a); by apply list_elem_of_In.
Qed.

End Properties.

(** ** Concrete runs of the properties *)

(** *** C1: a run in which cloning fails *)

(** C1 as the specification words it does not hold.  Source and target are
    8-port switches of one model, an organization identifier is given, every
    other collaborator call succeeds, and the clone call fails.  The run ends
    with the cloning error right after the clone call: no port and no device
    update is made. *)
Lemma clone_failure_stops_migration :
  fst Demo.clone_failure_run
  = inl (ClickException "Error cloning configuration from SRC to TGT.") /\
  last (trace (snd Demo.clone_failure_run))
  = Some (Called (cloneOrganizationSwitchDevices "537758" "SRC" ["TGT"])) /\
  List.filter is_port_update (trace (snd Demo.clone_failure_run)) = [] /\
  List.filter is_device_update (trace (snd Demo.clone_failure_run)) = [].
Proof. vm_compute. repeat split. Qed.

Lemma migrate_apply_clone_failure_aborts_witness :
  (exists t,
     trace (snd Demo.apply_with_failing_clone)
     = trace Demo.fetched_8 ++ Called Demo.clone :: t) /\
  (forall e remote',
     Demo.dashboard 8 8 "MS120-8" "MS120-8" true Demo.clone
       (remote Demo.fetched_8) = (inl e, remote') ->
     Demo.apply_with_failing_clone
     = (inl (ClickException "Error cloning configuration from SRC to TGT."),
        emit (Called Demo.clone) (with_remote remote' Demo.fetched_8))).
Proof.
  apply (migrate_apply_clone_failure_aborts Demo.repr
           (Demo.dashboard 8 8 "MS120-8" "MS120-8" true) "537758" "SRC" "TGT"
           Demo.source_without_name Demo.source_without_name
           (seq 0 8) (seq 0 8) Demo.fetched_8).
  reflexivity.
Defined.

(** *** The other claims at concrete inputs *)

Lemma update_switch_ports_incompatible_witness :
  update_switch_ports Demo.repr (Demo.dashboard 8 26 "MS120-8" "MS120-24" false)
    (seq 0 8) "TGT" 26 Demo.fetched_8
  = (inl (BadParameter
            ("Incompatible port counts (" +:+ str_of_int 8
               +:+ "-port switch -> " +:+ str_of_int 24
               +:+ "-port switch).")),
     Demo.fetched_8).
Proof.
  apply (update_switch_ports_incompatible Demo.repr
           (Demo.dashboard 8 26 "MS120-8" "MS120-24" false)
           (seq 0 8) "TGT" 26 Demo.fetched_8 8 24).
  - discriminate.
  - reflexivity.
  - reflexivity.
  - lia.
  - lia.
  - lia.
Defined.

Lemma payload_omits_unset_fields_witness :
  (exists d update_device_kwargs t,
     Device.init (known_items Device.parameters Demo.mapping) = inr d /\
     trace (snd (update_switch_config Demo.repr
                   (Demo.dashboard 24 24 "MS120-24" "MS120-24" false) d "TGT"
                   Demo.start))
     = trace Demo.start ++ t /\
     calls t = [updateDevice "TGT" update_device_kwargs] /\
     ("notes" <> "name" -> dict_get "notes" update_device_kwargs = None) /\
     dict_get "name" update_device_kwargs
     = Some (PyStr (py_str Demo.repr (Device.name d) +:+ "-clone")) /\
     ("notes" = "name" ->
      dict_get "name" update_device_kwargs = Some (PyStr "None-clone"))) /\
  (exists p,
     Port.init (known_items Port.parameters Demo.mapping) = inr p /\
     dict_get "notes" (Port.asdict p not_none_not_portId_items) = None) /\
  (forall p : SwitchPort,
     dict_get "portId" (Port.asdict p not_none_not_portId_items) = None).
Proof.
  apply (payload_omits_unset_fields Demo.repr Demo.mapping "notes"
           (Demo.dashboard 24 24 "MS120-24" "MS120-24" false) "TGT" Demo.start).
  intros v Hv. unfold Demo.mapping in Hv. cbn [In] in Hv.
  repeat (destruct Hv as [Hv|Hv]; [inversion Hv; try reflexivity|]).
  destruct Hv.
Defined.

Lemma precondition_checks_order_witness :
  precondition_checks false "SRC" "TGT" Demo.target_in_use Demo.start
  = (inl (ClickException (in_use_message "TGT")), Demo.start) /\
  precondition_checks false "SRC" "TGT" Demo.target_untagged Demo.start
  = (inl (ClickException (not_undeployed_message "TGT")), Demo.start) /\
  precondition_checks false "SRC" "TGT" Demo.target_ready Demo.start
  = confirm (confirm_prompt "SRC" "TGT") Demo.start /\
  precondition_checks true "SRC" "TGT" Demo.target_ready Demo.start
  = (inr tt,
     emit (Echo ("Copying configuration from " +:+ "SRC" +:+ " to "
                   +:+ "TGT" +:+ "...")) Demo.start) /\
  precondition_checks true "SRC" "TGT" Demo.target_without_tags Demo.start
  = (inl TypeError, Demo.start).
Proof.
  split; [|split; [|split; [|split]]].
  - apply (proj1 (precondition_checks_order false "SRC" "TGT"
                    Demo.target_in_use Demo.start)).
    reflexivity.
  - apply (proj1 (proj1 (proj2 (precondition_checks_order false "SRC" "TGT"
                                  Demo.target_untagged Demo.start))
                    eq_refl [PyStr "lab"] eq_refl)).
    intros [Hin|[]]. discriminate Hin.
  - apply (proj2 (proj1 (proj2 (precondition_checks_order false "SRC" "TGT"
                                  Demo.target_ready Demo.start))
                    eq_refl [PyStr "lab"; PyStr "undeployed"] eq_refl)).
    right. left. reflexivity.
  - apply (proj2 (proj1 (proj2 (precondition_checks_order true "SRC" "TGT"
                                  Demo.target_ready Demo.start))
                    eq_refl [PyStr "lab"; PyStr "undeployed"] eq_refl)).
    right. left. reflexivity.
  - apply (proj2 (proj2 (precondition_checks_order true "SRC" "TGT"
                           Demo.target_without_tags Demo.start)));
      reflexivity.
Defined.

Lemma precondition_checks_unset_tags_witness :
  precondition_checks false "SRC" "TGT" Demo.target_without_tags Demo.start
  = (inl TypeError, Demo.start).
Proof.
  apply (precondition_checks_unset_tags false "SRC" "TGT"
           Demo.target_without_tags Demo.start); reflexivity.
Defined.

Lemma update_switch_config_unset_name_witness :
  dict_get "name"
    (Device.asdict (Device.set_name Demo.source_without_name (PyStr "None-clone"))
       not_none_items)
  = Some (PyStr "None-clone") /\
  exists t,
    trace (snd (update_switch_config Demo.repr
                  (Demo.dashboard 24 24 "MS120-24" "MS120-24" false)
                  Demo.source_without_name "TGT" Demo.start))
    = trace Demo.start
      ++ [Echo "---- Updating switch configuration for TGT ----";
          Called (updateDevice "TGT"
                    (Device.asdict
                       (Device.set_name Demo.source_without_name
                          (PyStr "None-clone"))
                       not_none_items))]
      ++ t.
Proof.
  apply (update_switch_config_unset_name Demo.repr
           (Demo.dashboard 24 24 "MS120-24" "MS120-24" false)
           Demo.source_without_name "TGT" Demo.start).
  reflexivity.
Defined.

Lemma fetched_valid (n : nat) (w : World unit) :
  length (heap w) = n ->
  forall a, In a (seq 0 n) -> is_Some (heap w !! a).
Proof.
  intros Hlen a Ha. apply in_seq in Ha. apply lookup_lt_is_Some. lia.
Qed.


Lemma adjusted_source_ports_48_to_24_witness :
  exists h',
    adjusted_source_ports (seq 0 50) "TGT" 26 Demo.fetched_50
    = (inr (take 24 (seq 0 50) ++ drop 48 (seq 0 50)),
       with_heap h' Demo.fetched_50) /\
    length (take 24 (seq 0 50)) = 24%nat /\
    length h' = length (heap Demo.fetched_50) /\
    (forall a, In a (take 24 (seq 0 50)) ->
       h' !! a = heap Demo.fetched_50 !! a) /\
    (forall a p k, In a (drop 48 (seq 0 50)) ->
       heap Demo.fetched_50 !! a = Some p ->
       py_int (Port.portId p) = inr k ->
       exists q : SwitchPort,
         h' !! a = Some q /\
         Port.portId q = PyStr (str_of_int (k - 24)) /\
         py_int (Port.portId q) = inr (k - 24) /\
         other_fields q = other_fields p) /\
    (forall a, In a (take 24 (drop 24 (seq 0 50))) ->
       ~ In a (take 24 (seq 0 50) ++ drop 48 (seq 0 50))).
Proof.
  apply (adjusted_source_ports_48_to_24 (seq 0 50) "TGT" 26 Demo.fetched_50).
  - apply NoDup_seq.
  - reflexivity.
  - reflexivity.
  - intros a Ha. cbn in Ha. destruct Ha as [<-|[<-|[]]].
    + eexists _, _. split; vm_compute; reflexivity.
    + eexists _, _. split; vm_compute; reflexivity.
Defined.

(** *** C2 and C8: runs that the specification words otherwise *)

(** C2 as the specification words it does not hold for every target.  The
    target has a name that differs from its mac and no tags at all, so that
    "undeployed" is absent.  The checks do not refuse it for the missing tag:
    the membership test raises [TypeError], and so does the whole run, which
    has updated nothing. *)
Lemma target_without_tags_not_refused :
  py_eq (Device.name Demo.target_without_tags)
    (Device.mac Demo.target_without_tags) = false /\
  Device.tags Demo.target_without_tags = PyNone /\
  precondition_checks false "SRC" "TGT" Demo.target_without_tags Demo.start
  = (inl TypeError, Demo.start) /\
  fst Demo.untagged_run = inl TypeError /\
  List.filter is_mutation (trace (snd Demo.untagged_run)) = [].
Proof. vm_compute. repeat split. Qed.

(** C8 as the specification words it does not hold for devices.  The mapping
    has no name, and the device built from it has none; the payload that
    [update_switch_config] sends for that device has the key [name]. *)
Lemma unset_name_is_sent :
  unset_in Demo.nameless_mapping "name" /\
  exists d,
    Device.init (known_items Device.parameters Demo.nameless_mapping) = inr d /\
    Device.name d = PyNone /\
    calls (trace (snd (update_switch_config Demo.repr
                         (Demo.dashboard 24 24 "MS120-24" "MS120-24" false)
                         d "TGT" Demo.start)))
    = [updateDevice "TGT"
         [("name", PyStr "None-clone"); ("model", PyStr "MS120-24")]].
Proof.
  split.
  - intros v Hv. unfold Demo.nameless_mapping in Hv. cbn [In] in Hv.
    destruct Hv as [Hv|[Hv|[]]]; discriminate Hv.
  - eexists. split; [reflexivity|]. vm_compute. split; reflexivity.
Qed.

(** ** Further properties of the program *)

Section Coverage.

Context {R : Type}.
Variable py_repr : pyval -> string.

Implicit Types (w : World R) (dashboard_api : client R) (p : event -> bool).

Local Abbreviation emits := (emits (R:=R)).

(** *** What a computation adds to the trace *)

Lemma emits_ret {A} p (a : A) : emits p (ret a).
Proof. intros w. exists []. cbn. by rewrite app_nil_r. Qed.

Lemma emits_raise {A} p (e : exn) : emits p (@raise R A e).
Proof. intros w. exists []. cbn. by rewrite app_nil_r. Qed.

Lemma emits_lift {A} p (r : exn + A) : emits p (lift r).
Proof. destruct r; [apply emits_raise | apply emits_ret]. Qed.

Lemma emits_bind {A B} p (m : M R A) (k : A -> M R B) :
  emits p m -> (forall a, emits p (k a)) -> emits p (bind m k).
Proof.
  intros Hm Hk w. unfold bind. destruct (Hm w) as (t & Ht & Hp).
  destruct (m w) as [[e|a] w']; cbn in *; [eauto|].
  destruct (Hk a w') as (t' & Ht' & Hp'). exists (t ++ t').
  rewrite Ht', Ht, app_assoc, forallb_app, Hp, Hp'. done.
Qed.

Lemma emits_try_except {A} p (body : M R A) catches handler :
  emits p body -> (forall e, emits p (handler e)) ->
  emits p (try_except body catches handler).
Proof.
  intros Hm Hk w. unfold try_except. destruct (Hm w) as (t & Ht & Hp).
  destruct (body w) as [[e|a] w']; cbn in *; [|eauto].
  destruct (catches e); cbn; [|eauto].
  destruct (Hk e w') as (t' & Ht' & Hp'). exists (t ++ t').
  rewrite Ht', Ht, app_assoc, forallb_app, Hp, Hp'. done.
Qed.

Lemma emits_echo p line : p (Echo line) = true -> emits p (echo line).
Proof. intros Hp w. exists [Echo line]. cbn. by rewrite Hp. Qed.

Lemma emits_confirm p prompt :
  p (Confirm prompt) = true -> emits p (confirm prompt).
Proof.
  intros Hp w. exists [Confirm prompt]. unfold confirm.
  destruct (stdin w) as [|[] ?]; cbn; by rewrite Hp.
Qed.

Lemma emits_invoke p dashboard_api c :
  p (Called c) = true -> emits p (invoke dashboard_api c).
Proof.
  intros Hp w. exists [Called c]. unfold invoke.
  destruct (dashboard_api c (remote w)); cbn; by rewrite Hp.
Qed.

Lemma emits_alloc p q : emits p (alloc q).
Proof. intros w. exists []. cbn. by rewrite app_nil_r. Qed.

Lemma emits_load p a : emits p (load a).
Proof.
  intros w. exists []. unfold load.
  destruct (heap w !! a); cbn; by rewrite app_nil_r.
Qed.

Lemma emits_store p a q : emits p (store a q).
Proof.
  intros w. exists []. unfold store.
  destruct (heap w !! a); cbn; by rewrite app_nil_r.
Qed.

Lemma emits_for_each {A} p (l : list A) body :
  (forall x, emits p (body x)) -> emits p (for_each l body).
Proof.
  intros Hb. induction l as [|x l IH]; cbn [for_each].
  - apply emits_ret.
  - apply emits_bind; auto.
Qed.

Lemma emits_for_fold {A S} p (l : list A) (s : S) body :
  (forall s x, emits p (body s x)) -> emits p (for_fold l s body).
Proof.
  intros Hb. revert s. induction l as [|x l IH]; intros s; cbn [for_fold].
  - apply emits_ret.
  - apply emits_bind; auto.
Qed.

Lemma emits_weaken {A} p q (m : M R A) :
  (forall e, p e = true -> q e = true) -> emits p m -> emits q m.
Proof.
  intros Hpq Hm w. destruct (Hm w) as (t & Ht & Hp). exists t.
  split; [exact Ht|]. apply forallb_forall. intros e He.
  apply Hpq. by apply (proj1 (forallb_forall _ _) Hp).
Qed.

(** A computation that emits nothing leaves the trace as it was. *)
Lemma emits_nothing {A} (m : M R A) w :
  emits (fun _ => false) m -> trace (snd (m w)) = trace w.
Proof.
  intros Hm. destruct (Hm w) as (t & Ht & Hp).
  destruct t; [by rewrite Ht, app_nil_r | discriminate Hp].
Qed.

Ltac emits_side :=
  first
    [ assumption
    | match goal with H : forall _, _ = true |- _ => apply H end
    | match goal with H : forall _ _, _ = true |- _ => apply H end
    | reflexivity
    | lazy beta iota delta
        [only_port_updates_of only_reads_of only_tagging_of is_mutation
         is_clone negb andb];
      rewrite ?String.eqb_refl; reflexivity ].

Ltac emits_step :=
  lazymatch goal with
  | |- emits _ (ret _) => apply emits_ret
  | |- emits _ (raise _) => apply emits_raise
  | |- emits _ (lift _) => apply emits_lift
  | |- emits _ (echo _) => apply emits_echo; emits_side
  | |- emits _ (confirm _) => apply emits_confirm; emits_side
  | |- emits _ (invoke _ _) => apply emits_invoke; emits_side
  | |- emits _ (alloc _) => apply emits_alloc
  | |- emits _ (load _) => apply emits_load
  | |- emits _ (store _ _) => apply emits_store
  | |- emits _ (bind _ _) => apply emits_bind
  | |- emits _ (try_except _ _ _) => apply emits_try_except
  | |- emits _ (for_each _ _) => apply emits_for_each
  | |- emits _ (for_fold _ _ _) => apply emits_for_fold
  | |- emits _ (if ?b then _ else _) => destruct b
  | |- emits _ (match ?o with Some _ => _ | None => _ end) => destruct o
  | |- emits _ (let _ := _ in _) => cbv zeta
  | |- forall _, _ => intro
  end.

Lemma emits_get_switch_config p dashboard_api serial :
  p (Called (getDevice serial)) = true ->
  emits p (get_switch_config dashboard_api serial).
Proof. intros Hp. unfold get_switch_config. repeat emits_step. Qed.

Lemma emits_get_switch_ports p dashboard_api serial :
  p (Called (getDeviceSwitchPorts serial)) = true ->
  emits p (get_switch_ports dashboard_api serial).
Proof. intros Hp. unfold get_switch_ports. repeat emits_step. Qed.

Lemma emits_show_fields p items :
  (forall line, p (Echo line) = true) ->
  emits p (show_fields py_repr items).
Proof. intros Hp. unfold show_fields. repeat emits_step. Qed.

Lemma emits_show_device p title device :
  (forall line, p (Echo line) = true) ->
  emits p (show_device py_repr title device).
Proof. intros Hp. unfold show_device. repeat emits_step. Qed.

Lemma emits_adjusted_source_ports p source_ports target_serial
    target_port_count :
  emits p (adjusted_source_ports source_ports target_serial target_port_count).
Proof.
  unfold adjusted_source_ports, shift_portId, duplicate_first.
  repeat emits_step.
Qed.

Lemma emits_update_port p dashboard_api target_serial port :
  (forall line, p (Echo line) = true) ->
  (forall port_id kwargs,
     p (Called (updateDeviceSwitchPort target_serial port_id kwargs)) = true) ->
  emits p (update_port py_repr dashboard_api target_serial port).
Proof. intros He Hc. unfold update_port. repeat emits_step. Qed.

Lemma emits_update_switch_ports p dashboard_api source_ports target_serial
    target_port_count :
  (forall line, p (Echo line) = true) ->
  (forall port_id kwargs,
     p (Called (updateDeviceSwitchPort target_serial port_id kwargs)) = true) ->
  emits p (update_switch_ports py_repr dashboard_api source_ports
             target_serial target_port_count).
Proof.
  intros He Hc. unfold update_switch_ports.
  apply emits_bind; [apply emits_adjusted_source_ports|].
  intros l. apply emits_for_each. intros port. by apply emits_update_port.
Qed.

Lemma emits_update_switch_config p dashboard_api source_device target_serial :
  (forall line, p (Echo line) = true) ->
  (forall kwargs, p (Called (updateDevice target_serial kwargs)) = true) ->
  emits p (update_switch_config py_repr dashboard_api source_device
             target_serial).
Proof. intros He Hc. unfold update_switch_config. repeat emits_step. Qed.

Lemma emits_precondition_checks p yes source_serial target_serial
    target_device :
  (forall line, p (Echo line) = true) ->
  (forall prompt, p (Confirm prompt) = true) ->
  emits p (precondition_checks yes source_serial target_serial target_device).
Proof. intros He Hc. unfold precondition_checks. repeat emits_step. Qed.


Ltac run_step tac :=
  etransitivity; [apply bind_ok; tac | cbv beta].

(** *** Reading a device *)

(** [get_switch_config] makes one call and touches nothing else.  It either
    returns the device built from the recognised keys of the dictionary that
    the call answered, or raises its own error: whatever went wrong, a
    failing call or an answer that is no dictionary, the caller sees the same
    [ClickException]. *)
Theorem get_switch_config_outcome dashboard_api serial w :
  trace (snd (get_switch_config dashboard_api serial w))
  = trace w ++ [Called (getDevice serial)] /\
  heap (snd (get_switch_config dashboard_api serial w)) = heap w /\
  remote (snd (get_switch_config dashboard_api serial w))
  = snd (dashboard_api (getDevice serial) (remote w)) /\
  match fst (get_switch_config dashboard_api serial w) with
  | inl e =>
      e = ClickException
            ("Error getting switch configuration for " +:+ serial +:+ ".") /\
      forall mapping,
        fst (dashboard_api (getDevice serial) (remote w)) <> inr (PyDict mapping)
  | inr d =>
      exists mapping,
        fst (dashboard_api (getDevice serial) (remote w)) = inr (PyDict mapping) /\
        Device.init (known_items Device.parameters mapping) = inr d
  end.
Proof.
  remember (get_switch_config dashboard_api serial w) as run eqn:Hrun.
  unfold get_switch_config, try_except, bind at 1, invoke in Hrun.
  destruct (dashboard_api (getDevice serial) (remote w)) as [[e|response] r'].
  - subst run. cbn. repeat split. intros mapping. discriminate.
  - destruct response as [| | | | | |mapping];
      try (subst run; cbn; repeat split; intros mapping; discriminate).
    unfold bind at 1 in Hrun. cbn [py_items lift ret] in Hrun.
    unfold bind at 1 in Hrun.
    destruct (Device_init_known mapping) as [d Hd]. rewrite Hd in Hrun.
    subst run. cbn [lift ret fst snd trace heap remote emit with_remote].
    repeat split. exists mapping. split; [reflexivity|exact Hd].
Qed.

(** When the call answers a dictionary, the device has, field by field, the
    value the dictionary gives to the key of that name, and [None] where the
    dictionary has no such key; keys that are no field are dropped. *)
Theorem get_switch_config_fields dashboard_api serial w mapping remote' :
  dashboard_api (getDevice serial) (remote w) = (inr (PyDict mapping), remote') ->
  NoDup (map fst mapping) ->
  exists d,
    get_switch_config dashboard_api serial w
    = (inr d, emit (Called (getDevice serial)) (with_remote remote' w)) /\
    map fst (Device.items d) = Device.parameters /\
    forall k v, In (k, v) (Device.items d) ->
                v = default PyNone (dict_get k mapping).
Proof.
  intros Hcall Hnd. destruct (Device_init_known mapping) as [d Hd]. exists d.
  split; [|split].
  - unfold get_switch_config, try_except, bind at 1, invoke. rewrite Hcall.
    unfold bind at 1. cbn [py_items lift ret]. unfold bind at 1.
    rewrite Hd. reflexivity.
  - apply Device_items_keys.
  - intros k v Hin.
    rewrite (Device_items_init _ _ _ _ Hd Hin), dict_get_known_items by exact Hnd.
    rewrite str_in_In; [reflexivity|].
    rewrite <- (Device_items_keys d). by apply (in_map fst _ (k, v)).
Qed.

(** *** Reading the ports of a switch *)


(** An answer without ports is an error, and the caller sees the error of
    [get_switch_ports], not the one about zero ports, which is raised inside
    the [try] and replaced. *)
Theorem get_switch_ports_no_ports dashboard_api serial w response remote' :
  dashboard_api (getDeviceSwitchPorts serial) (remote w) = (inr response, remote') ->
  py_iter response = inr [] ->
  get_switch_ports dashboard_api serial w
  = (inl (ClickException
            ("Error getting port configurations on switch " +:+ serial +:+ ".")),
     emit (Called (getDeviceSwitchPorts serial)) (with_remote remote' w)).
Proof.
  intros Hcall Hiter.
  unfold get_switch_ports, try_except, bind at 1, invoke. rewrite Hcall.
  unfold bind at 1. rewrite Hiter. reflexivity.
Qed.

(** *** Updating the ports *)

(** When source and target have the same RJ45 count, the ports to apply are
    the source ports themselves, in order, and nothing in the world
    changes. *)
Theorem adjusted_source_ports_same_count source_ports target_serial
    target_port_count w c :
  source_ports <> [] ->
  rj45_count (Z.of_nat (length source_ports)) = inr c ->
  rj45_count target_port_count = inr c ->
  adjusted_source_ports source_ports target_serial target_port_count w
  = (inr source_ports, w).
Proof.
  intros Hne Hs Ht. unfold adjusted_source_ports. cbv zeta.
  destruct (Z.eqb_spec (Z.of_nat (length source_ports)) 0) as [H0|_].
  { destruct source_ports; [congruence | cbn in H0; lia]. }
  run_step ltac:(rewrite Hs; reflexivity).
  run_step ltac:(rewrite Ht; reflexivity).
  rewrite Z.eqb_refl. cbn [negb].
  run_step ltac:(reflexivity).
  unfold ret. by rewrite take_drop.
Qed.

(** Whatever makes the adjustment of the source ports raise (no port, counts
    that do not fit, a port number that [int] cannot read), it does so before
    the first update: [update_switch_ports] raises the same exception, and
    the trace is as it was. *)
Theorem update_switch_ports_fails_before_updating dashboard_api source_ports
    target_serial target_port_count w e w' :
  adjusted_source_ports source_ports target_serial target_port_count w
  = (inl e, w') ->
  update_switch_ports py_repr dashboard_api source_ports target_serial
    target_port_count w = (inl e, w') /\
  trace w' = trace w.
Proof.
  intros Hadj. split.
  - unfold update_switch_ports, bind. by rewrite Hadj.
  - pose proof (emits_nothing
                  (adjusted_source_ports source_ports target_serial
                     target_port_count) w
                  (emits_adjusted_source_ports _ _ _ _)) as Ht.
    by rewrite Hadj in Ht.
Qed.

Lemma calls_app (t t' : list event) : calls (t ++ t') = calls t ++ calls t'.
Proof. apply omap_app. Qed.

Lemma port_update_calls_length target_serial (h : list SwitchPort)
    (ports : list addr) :
  (forall a, In a ports -> is_Some (h !! a)) ->
  length (omap (port_update_call target_serial h) ports) = length ports.
Proof.
  induction ports as [|a ports IH]; intros Hlive; [reflexivity|].
  destruct (Hlive a) as [q Hq]; [by left|].
  cbn [omap list_omap]. unfold port_update_call at 1. rewrite Hq.
  cbn [mbind option_bind length]. f_equal. apply IH.
  intros b Hb. apply Hlive. by right.
Qed.

Lemma for_each_update_port dashboard_api target_serial (ports : list addr) w :
  (forall a, In a ports -> is_Some (heap w !! a)) ->
  heap (snd (for_each ports (update_port py_repr dashboard_api target_serial) w))
  = heap w /\
  exists t,
    trace (snd (for_each ports (update_port py_repr dashboard_api target_serial) w))
    = trace w ++ t /\
    calls t
    = take (length (answers dashboard_api
                      (omap (port_update_call target_serial (heap w)) ports)
                      (remote w)))
        (omap (port_update_call target_serial (heap w)) ports) /\
    match last (answers dashboard_api
                  (omap (port_update_call target_serial (heap w)) ports)
                  (remote w)) with
    | Some (inl _) =>
        exists a q,
          ports !! (length (answers dashboard_api
                              (omap (port_update_call target_serial (heap w)) ports)
                              (remote w)) - 1)%nat = Some a /\
          heap w !! a = Some q /\
          fst (for_each ports (update_port py_repr dashboard_api target_serial) w)
          = inl (ClickException
                   ("Error updating port " +:+ py_str py_repr (Port.portId q)
                      +:+ " on switch " +:+ target_serial +:+ "."))
    | _ =>
        fst (for_each ports (update_port py_repr dashboard_api target_serial) w)
        = inr tt /\
        length (answers dashboard_api
                  (omap (port_update_call target_serial (heap w)) ports)
                  (remote w)) = length ports
    end.
Proof.
  revert w. induction ports as [|a ports IH]; intros w Hlive.
  - cbn. split; [reflexivity|]. exists [].
    rewrite app_nil_r. repeat split.
  - destruct (Hlive a) as [q Hq]; [by left|].
    set (c := updateDeviceSwitchPort target_serial (Port.portId q)
                (Port.asdict q not_none_not_portId_items)).
    set (line := "---- Updating port " +:+ py_str py_repr (Port.portId q)
                   +:+ " on " +:+ target_serial +:+ " ----").
    assert (Hcall : port_update_call target_serial (heap w) a = Some c).
    { unfold port_update_call. rewrite Hq. reflexivity. }
    cbn [omap list_omap]. rewrite Hcall.
    set (cs := omap (port_update_call target_serial (heap w)) ports).
    cbn [answers].
    remember (for_each (a :: ports)
                (update_port py_repr dashboard_api target_serial) w)
      as run eqn:Hrun.
    cbn [for_each] in Hrun.
    unfold bind at 1, update_port at 1, bind at 1, load in Hrun.
    rewrite Hq in Hrun. unfold bind at 1, echo in Hrun.
    unfold try_except, bind at 1, invoke in Hrun.
    cbn [remote emit with_remote] in Hrun.
    fold c in Hrun. fold line in Hrun.
    destruct (dashboard_api c (remote w)) as [[e|response] remote'].
    + subst run. cbn [Exception raise fst snd heap trace emit with_remote].
      split; [reflexivity|].
      exists [Echo line; Called c].
      rewrite <- app_assoc. split; [reflexivity|]. split; [reflexivity|].
      cbn [last length]. exists a, q. repeat split. exact Hq.
    + cbn [echo] in Hrun.
      set (w3 := emit (Echo (py_str py_repr response)) _) in Hrun.
      assert (Hheap : heap w3 = heap w) by reflexivity.
      assert (Hremote : remote w3 = remote') by reflexivity.
      destruct (IH w3) as (Hh & t & Ht & Hcalls & Hres).
      { intros b Hb. rewrite Hheap. apply Hlive. by right. }
      rewrite Hheap, Hremote in Hcalls, Hres. fold cs in Hcalls, Hres.
      subst run. split; [by rewrite Hh|].
      exists ([Echo line; Called c; Echo (py_str py_repr response)] ++ t).
      split; [rewrite Ht; unfold w3; cbn [trace emit with_remote];
              by rewrite <- !app_assoc|].
      split.
      { rewrite calls_app. cbn [length firstn]. rewrite <- Hcalls. reflexivity. }
      rewrite last_cons. cbn [length].
      destruct (last (answers dashboard_api cs remote')) as [[e|v]|] eqn:Hlast.
      * destruct Hres as (b & qb & Hb & Hqb & Hfst).
        exists b, qb.
        assert (Hpos : (1 <= length (answers dashboard_api cs remote'))%nat).
        { destruct (answers dashboard_api cs remote'); [discriminate|cbn; lia]. }
        replace (S (length (answers dashboard_api cs remote')) - 1)%nat
          with (S (length (answers dashboard_api cs remote') - 1)) by lia.
        split; [exact Hb|]. split; [exact Hqb|exact Hfst].
      * destruct Hres as [Hfst Hl]. split; [exact Hfst|by rewrite Hl].
      * destruct Hres as [Hfst Hl]. split; [exact Hfst|by rewrite Hl].
Qed.

(** Once the ports to apply are known, [update_switch_ports] updates them in
    the order of the list, one call for each, with the port number and the
    payload of that port, for as long as the dashboard answers; the port
    objects are not changed by the updates.  When the dashboard answers every
    call, every port is updated and the function returns.  When a call
    fails, that call is the last one made, and the function raises the error
    that names the port of that call: the ports before it have been updated,
    the ports after it have not. *)
Theorem update_switch_ports_in_order dashboard_api source_ports target_serial
    target_port_count w ports w1 :
  adjusted_source_ports source_ports target_serial target_port_count w
  = (inr ports, w1) ->
  (forall a, In a ports -> is_Some (heap w1 !! a)) ->
  let run := update_switch_ports py_repr dashboard_api source_ports
               target_serial target_port_count w in
  let port_calls := omap (port_update_call target_serial (heap w1)) ports in
  let replies := answers dashboard_api port_calls (remote w1) in
  heap (snd run) = heap w1 /\
  length port_calls = length ports /\
  exists t,
    trace (snd run) = trace w ++ t /\
    calls t = take (length replies) port_calls /\
    match last replies with
    | Some (inl _) =>
        exists a q,
          ports !! (length replies - 1)%nat = Some a /\
          heap w1 !! a = Some q /\
          fst run
          = inl (ClickException
                   ("Error updating port " +:+ py_str py_repr (Port.portId q)
                      +:+ " on switch " +:+ target_serial +:+ "."))
    | _ => fst run = inr tt /\ length replies = length ports
    end.
Proof.
  intros Hadj Hlive run port_calls replies.
  assert (Hrun : run = for_each ports
                         (update_port py_repr dashboard_api target_serial) w1).
  { unfold run, update_switch_ports, bind. by rewrite Hadj. }
  rewrite Hrun.
  pose proof (emits_nothing
                (adjusted_source_ports source_ports target_serial
                   target_port_count) w
                (emits_adjusted_source_ports _ _ _ _)) as Ht.
  rewrite Hadj in Ht. cbn [snd] in Ht. rewrite <- Ht.
  destruct (for_each_update_port dashboard_api target_serial ports w1 Hlive)
    as (Hheap & Hrest).
  split; [exact Hheap|]. split; [|exact Hrest].
  by apply port_update_calls_length.
Qed.

(** [update_switch_ports] prints and updates ports of the target, and does
    nothing else that can be observed: no read, no clone, no update of a
    device, no call about another switch. *)
Theorem update_switch_ports_only_target dashboard_api source_ports
    target_serial target_port_count :
  emits (only_port_updates_of target_serial)
    (update_switch_ports py_repr dashboard_api source_ports target_serial
       target_port_count).
Proof.
  apply emits_update_switch_ports.
  - reflexivity.
  - intros port_id kwargs. cbn. apply String.eqb_refl.
Qed.

(** *** The payloads *)



(** *** The commands and the dashboard *)

Lemma emits_get_api_key_from_env p : emits p get_api_key_from_env.
Proof.
  intros w. exists []. unfold get_api_key_from_env.
  destruct (dict_get _ (environ w)); cbn; by rewrite app_nil_r.
Qed.

Lemma emits_clone_config p dashboard_api organization_id source_serial
    target_serial :
  (forall line, p (Echo line) = true) ->
  p (Called (cloneOrganizationSwitchDevices organization_id source_serial
               [target_serial])) = true ->
  emits p (clone_config py_repr dashboard_api organization_id source_serial
             target_serial).
Proof. intros He Hc. unfold clone_config. repeat emits_step. Qed.

Lemma emits_bind_raise {A B} p (e : exn) (k : A -> M R B) :
  emits p (bind (raise e) k).
Proof. intros w. exists []. cbn. by rewrite app_nil_r. Qed.

Lemma emits_bind_ret {A B} p (a : A) (k : A -> M R B) :
  emits p (k a) -> emits p (bind (ret a) k).
Proof. intros Hk w. exact (Hk w). Qed.

Lemma emits_add_undeployed_tag dashboard_api device_serial device :
  emits (only_tagging_of device_serial)
    (add_undeployed_tag py_repr dashboard_api device_serial device).
Proof.
  unfold add_undeployed_tag.
  apply emits_bind; [by apply emits_echo|]. intros _.
  destruct (Device.tags device) as [| | | | |l|]; cbn [py_append lift];
    try apply emits_bind_raise.
  apply emits_bind_ret. cbv zeta.
  apply emits_bind; [apply emits_invoke|intros response; by apply emits_echo].
  cbn [only_tagging_of]. by rewrite !String.eqb_refl, last_snoc, String.eqb_refl.
Qed.

Ltac emits_prog :=
  lazymatch goal with
  | |- emits _ get_api_key_from_env => apply emits_get_api_key_from_env
  | |- emits _ (get_switch_config _ _) =>
      apply emits_get_switch_config; emits_side
  | |- emits _ (get_switch_ports _ _) =>
      apply emits_get_switch_ports; emits_side
  | |- emits _ (show_fields _ _) => apply emits_show_fields; emits_side
  | |- emits _ (show_device _ _ _) => apply emits_show_device; emits_side
  | |- emits _ (precondition_checks _ _ _ _) =>
      apply emits_precondition_checks; emits_side
  | |- emits _ (update_switch_ports _ _ _ _ _) =>
      apply emits_update_switch_ports; intros; emits_side
  | |- emits _ (update_switch_config _ _ _ _) =>
      apply emits_update_switch_config; intros; emits_side
  | |- emits _ (clone_config _ _ _ _ _) =>
      apply emits_clone_config; intros; emits_side
  | |- emits _ (add_undeployed_tag _ _ _ _) =>
      apply emits_add_undeployed_tag
  | |- emits _ (match ?o with Some _ => _ | None => _ end) => destruct o
  | |- _ => emits_step
  end.

Lemma emits_extends {A} (m : M R A) :
  emits (fun _ => true) m -> forall w, exists t, trace (snd (m w)) = trace w ++ t.
Proof. intros Hm w. destruct (Hm w) as (t & Ht & _). eauto. Qed.

Lemma forallb_negb_existsb {A} (f : A -> bool) (l : list A) :
  forallb (fun x => negb (f x)) l = true -> existsb f l = false.
Proof.
  induction l as [|x l IH]; cbn; [done|].
  destruct (f x); cbn; [discriminate|exact IH].
Qed.

(** If a mutation shows in what [bind m k] adds to the trace, and [m] makes
    none, then [m] returned and the mutation is in what [k] adds. *)
Lemma bind_mutated {A B} (m : M R A) (k : A -> M R B) w t :
  emits (fun e => negb (is_mutation e)) m ->
  (forall a, emits (fun _ => true) (k a)) ->
  trace (snd (bind m k w)) = trace w ++ t ->
  existsb is_mutation t = true ->
  exists a w1 t1 t2,
    m w = (inr a, w1) /\ trace w1 = trace w ++ t1 /\ t = t1 ++ t2 /\
    trace (snd (k a w1)) = trace w1 ++ t2 /\
    existsb is_mutation t2 = true.
Proof.
  intros Hm Hk Ht Hmut. unfold bind in Ht.
  destruct (Hm w) as (t1 & Ht1 & Hnm).
  destruct (m w) as [[e|a] w1]; cbn [snd] in Ht, Ht1.
  - rewrite Ht1 in Ht. apply app_inv_head in Ht. subst t.
    by rewrite (forallb_negb_existsb _ _ Hnm) in Hmut.
  - destruct (emits_extends _ (Hk a) w1) as [t2 Ht2].
    assert (t = t1 ++ t2) as ->.
    { apply (app_inv_head (trace w)). by rewrite <- Ht, Ht2, Ht1, app_assoc. }
    exists a, w1, t1, t2. repeat split; try assumption.
    rewrite existsb_app, (forallb_negb_existsb _ _ Hnm) in Hmut. exact Hmut.
Qed.

Lemma try_except_mutated {A} (body : M R A) catches handler w t :
  emits (fun _ => true) body ->
  (forall e, emits (fun e => negb (is_mutation e)) (handler e)) ->
  trace (snd (try_except body catches handler w)) = trace w ++ t ->
  existsb is_mutation t = true ->
  exists t1 t2,
    t = t1 ++ t2 /\ trace (snd (body w)) = trace w ++ t1 /\
    existsb is_mutation t1 = true.
Proof.
  intros Hb Hh Ht Hmut. unfold try_except in Ht.
  destruct (emits_extends _ Hb w) as [t1 Ht1].
  destruct (body w) as [[e|a] w1]; cbn [snd] in Ht, Ht1.
  - destruct (catches e).
    + destruct (Hh e w1) as (t2 & Ht2 & Hnm).
      assert (t = t1 ++ t2) as ->.
      { apply (app_inv_head (trace w)). by rewrite <- Ht, Ht2, Ht1, app_assoc. }
      exists t1, t2. repeat split; [assumption|].
      rewrite existsb_app, (forallb_negb_existsb _ _ Hnm), orb_false_r in Hmut.
      exact Hmut.
    + cbn [snd] in Ht. rewrite Ht1 in Ht. apply app_inv_head in Ht. subst t.
      exists t1, []. by rewrite app_nil_r.
  - cbn [snd] in Ht. rewrite Ht1 in Ht. apply app_inv_head in Ht. subst t.
    exists t1, []. by rewrite app_nil_r.
Qed.

Lemma precondition_checks_passed yes source_serial target_serial
    target_device w w' :
  precondition_checks yes source_serial target_serial target_device w
  = (inr tt, w') ->
  py_eq (Device.name target_device) (Device.mac target_device) = false /\
  py_contains (Device.tags target_device) (PyStr "undeployed") = inr true /\
  (yes = true \/
   trace w' = trace w ++ [Confirm (confirm_prompt source_serial target_serial)]).
Proof.
  unfold precondition_checks.
  destruct (py_eq _ _); [discriminate|].
  unfold bind.
  destruct (py_contains _ _) as [e|[]]; cbn [lift raise ret negb];
    try discriminate.
  destruct yes; cbn [negb]; [by auto|].
  unfold confirm. destruct (stdin w) as [|[] rest]; try discriminate.
  intros [= <-]. repeat split. by right.
Qed.


Lemma get_switch_config_returned dashboard_api serial w d w' :
  get_switch_config dashboard_api serial w = (inr d, w') ->
  w' = emit (Called (getDevice serial))
         (with_remote (snd (dashboard_api (getDevice serial) (remote w))) w) /\
  exists mapping,
    fst (dashboard_api (getDevice serial) (remote w)) = inr (PyDict mapping) /\
    Device.init (known_items Device.parameters mapping) = inr d.
Proof.
  unfold get_switch_config, try_except, bind at 1, invoke.
  destruct (dashboard_api (getDevice serial) (remote w)) as [[e|response] r'];
    [discriminate|].
  destruct response as [| | | | | |mapping]; try discriminate.
  unfold bind at 1. cbn [py_items lift ret]. unfold bind at 1.
  destruct (Device.init (known_items Device.parameters mapping)) as [e|d0] eqn:Hd;
    [discriminate|].
  cbn [lift ret]. intros [= <- <-]. split; [reflexivity|].
  exists mapping. split; [reflexivity|exact Hd].
Qed.

(** [migrate] changes nothing on the dashboard unless the target passes the
    checks.  If a clone or an update shows in the trace of a run, then the
    answer to the read of the target was a dictionary, and the device built
    from it has a name that differs from its mac and has "undeployed" among
    its tags; and the operator was asked, unless [yes] was given. *)
Theorem migrate_mutates_only_checked_target dashboard_api api_key key
    organization_id quiet yes source_serial target_serial w t :
  (if String.eqb api_key "MERAKI_DASHBOARD_API_KEY"
   then dict_get "MERAKI_DASHBOARD_API_KEY" (environ w)
   else Some api_key) = Some key ->
  trace (snd (migrate py_repr dashboard_api api_key organization_id quiet yes
                source_serial target_serial w)) = trace w ++ t ->
  existsb is_mutation t = true ->
  exists mapping target_device,
    fst (dashboard_api (getDevice target_serial)
           (snd (dashboard_api (getDevice source_serial)
                   (snd (dashboard_api (DashboardAPI key quiet) (remote w))))))
    = inr (PyDict mapping) /\
    Device.init (known_items Device.parameters mapping) = inr target_device /\
    py_eq (Device.name target_device) (Device.mac target_device) = false /\
    py_contains (Device.tags target_device) (PyStr "undeployed") = inr true /\
    (yes = true \/
     In (Confirm (confirm_prompt source_serial target_serial)) t).
Proof.
  intros Hkey Ht Hmut. unfold migrate in Ht.
  assert (Hrun : forall k : string -> M R unit,
             bind (if String.eqb api_key "MERAKI_DASHBOARD_API_KEY"
                   then get_api_key_from_env else ret api_key) k w
             = k key w).
  { intros k. unfold bind. destruct (String.eqb api_key _).
    - unfold get_api_key_from_env. by rewrite Hkey.
    - injection Hkey as <-. reflexivity. }
  rewrite Hrun in Ht. clear Hrun.
  apply try_except_mutated in Ht as (t0 & th & -> & Ht & Hmut0);
    [|unfold migrate_apply; repeat emits_prog
     |intros e; repeat emits_prog|exact Hmut].
  clear Hmut.
  apply bind_mutated in Ht as (v & w1 & t1 & t1' & Hrun1 & Hw1 & -> & Ht & Hmut1);
    [|repeat emits_prog|intros a; unfold migrate_apply; repeat emits_prog
     |exact Hmut0].
  apply bind_mutated in Ht as (sd & w2 & t2 & t2' & Hrun2 & Hw2 & -> & Ht & Hmut2);
    [|repeat emits_prog|intros a; unfold migrate_apply; repeat emits_prog
     |exact Hmut1].
  apply bind_mutated in Ht as (td & w3 & t3 & t3' & Hrun3 & Hw3 & -> & Ht & Hmut3);
    [|repeat emits_prog|intros a; unfold migrate_apply; repeat emits_prog
     |exact Hmut2].
  apply bind_mutated in Ht as (u4 & w4 & t4 & t4' & Hrun4 & Hw4 & -> & Ht & Hmut4);
    [|repeat emits_prog|intros a; unfold migrate_apply; repeat emits_prog
     |exact Hmut3].
  apply bind_mutated in Ht as (u5 & w5 & t5 & t5' & Hrun5 & Hw5 & -> & Ht & Hmut5);
    [|repeat emits_prog|intros a; unfold migrate_apply; repeat emits_prog
     |exact Hmut4].
  apply bind_mutated in Ht as (u6 & w6 & t6 & t6' & Hrun6 & Hw6 & -> & Ht & Hmut6);
    [|repeat emits_prog|intros a; unfold migrate_apply; repeat emits_prog
     |exact Hmut5].
  destruct u6.
  apply precondition_checks_passed in Hrun6 as (Hname & Htag & Hyes).
  apply get_switch_config_returned in Hrun2 as (-> & _).
  apply get_switch_config_returned in Hrun3 as (_ & mapping & Hmap & Hinit).
  cbn [remote emit with_remote] in Hmap.
  assert (Hr1 : remote w1
                = snd (dashboard_api (DashboardAPI key quiet) (remote w))).
  { unfold invoke in Hrun1.
    destruct (dashboard_api (DashboardAPI key quiet) (remote w)).
    by injection Hrun1 as _ <-. }
  rewrite Hr1 in Hmap.
  exists mapping, td. repeat split; try assumption.
  destruct Hyes as [->|Hconfirm]; [by left|right].
  rewrite Hw6 in Hconfirm. apply app_inv_head in Hconfirm. subst t6.
  rewrite !in_app_iff. cbn [In]. tauto.
Qed.

Lemma resolve_key dashboard_api_key key w {B} (k : string -> M R B) :
  (if String.eqb dashboard_api_key "MERAKI_DASHBOARD_API_KEY"
   then dict_get "MERAKI_DASHBOARD_API_KEY" (environ w)
   else Some dashboard_api_key) = Some key ->
  bind (if String.eqb dashboard_api_key "MERAKI_DASHBOARD_API_KEY"
        then get_api_key_from_env else ret dashboard_api_key) k w
  = k key w.
Proof.
  intros Hkey. unfold bind. destruct (String.eqb dashboard_api_key _).
  - unfold get_api_key_from_env. by rewrite Hkey.
  - injection Hkey as <-. reflexivity.
Qed.

(** Without an organization identifier [migrate] never clones, whatever the
    models of the two switches. *)
Theorem migrate_without_organization_never_clones dashboard_api api_key quiet
    yes source_serial target_serial :
  emits (fun e => negb (is_clone e))
    (migrate py_repr dashboard_api api_key None quiet yes source_serial
       target_serial).
Proof. unfold migrate, migrate_apply. repeat emits_prog. Qed.

(** No command contacts the dashboard without a key: when the key argument is
    left at its default and the environment variable is not set, each of the
    three commands raises [BadParameter] and the world is as it was. *)
Theorem commands_need_api_key dashboard_api organization_id quiet yes
    source_serial target_serial w :
  dict_get "MERAKI_DASHBOARD_API_KEY" (environ w) = None ->
  let missing :=
    BadParameter
      "No API key provided. Please set the environment variable MERAKI_DASHBOARD_API_KEY." in
  migrate py_repr dashboard_api "MERAKI_DASHBOARD_API_KEY" organization_id
    quiet yes source_serial target_serial w = (inl missing, w) /\
  display py_repr dashboard_api "MERAKI_DASHBOARD_API_KEY" target_serial w
  = (inl missing, w) /\
  tag py_repr dashboard_api "MERAKI_DASHBOARD_API_KEY" target_serial w
  = (inl missing, w).
Proof.
  intros Henv. unfold migrate, display, tag, bind.
  cbn [String.eqb Ascii.eqb Bool.eqb]. unfold get_api_key_from_env.
  rewrite Henv. repeat split.
Qed.

Lemma bind_inr {A B} (m : M R A) (k : A -> M R B) w b w' :
  bind m k w = (inr b, w') ->
  exists a w1, m w = (inr a, w1) /\ k a w1 = (inr b, w').
Proof.
  unfold bind. destruct (m w) as [[e|a] w1]; [discriminate|]. eauto.
Qed.

Lemma update_switch_config_returned dashboard_api source_device target_serial
    w w' :
  update_switch_config py_repr dashboard_api source_device target_serial w
  = (inr tt, w') ->
  exists line line',
    trace w'
    = trace w
      ++ [Echo line;
          Called (updateDevice target_serial
                    (Device.asdict
                       (Device.set_name source_device
                          (PyStr (py_str py_repr (Device.name source_device)
                                    +:+ "-clone")))
                       not_none_items));
          Echo line'].
Proof.
  unfold update_switch_config. cbv zeta.
  unfold bind at 1, echo, try_except, bind, invoke.
  cbn [remote emit with_remote].
  destruct (dashboard_api _ (remote w)) as [[e|response] remote'];
    [discriminate|].
  intros [= <-]. cbn [trace emit with_remote].
  eexists _, _. by rewrite <- !app_assoc.
Qed.

Lemma update_switch_config_sends_renamed_name (source_device : SwitchDevice) :
  exists name,
    dict_get "name"
      (Device.asdict
         (Device.set_name source_device
            (PyStr (py_str py_repr (Device.name source_device) +:+ "-clone")))
         not_none_items)
    = Some (PyStr (name +:+ "-clone")).
Proof.
  exists (py_str py_repr (Device.name source_device)).
  rewrite Device_asdict_eq. apply not_none_items_spec.
  - rewrite Device_items_keys. apply NoDup_Device_parameters.
  - split; [by left|discriminate].
Qed.

(** When [migrate] returns normally, the last thing it did on the dashboard
    is the update of the target device, with a name that ends in "-clone":
    the device is updated only after everything else went through. *)
Theorem migrate_returns_after_device_update dashboard_api api_key
    organization_id quiet yes source_serial target_serial w w' :
  migrate py_repr dashboard_api api_key organization_id quiet yes
    source_serial target_serial w = (inr tt, w') ->
  exists t kwargs name line,
    trace w' = t ++ [Called (updateDevice target_serial kwargs); Echo line] /\
    dict_get "name" kwargs = Some (PyStr (name +:+ "-clone")).
Proof.
  unfold migrate. intros Hrun.
  apply bind_inr in Hrun as (key & w0 & _ & Hrun).
  unfold try_except in Hrun.
  destruct (bind _ _ w0) as [[e|[]] w9] eqn:Hbody.
  { destruct (is_APIError e); [|discriminate].
    unfold bind, echo, raise in Hrun. discriminate. }
  injection Hrun as <-.
  apply bind_inr in Hbody as (v1 & w1 & _ & Hbody).
  apply bind_inr in Hbody as (sd & w2 & _ & Hbody).
  apply bind_inr in Hbody as (td & w3 & _ & Hbody).
  apply bind_inr in Hbody as (u4 & w4 & _ & Hbody).
  apply bind_inr in Hbody as (u5 & w5 & _ & Hbody).
  apply bind_inr in Hbody as (u6 & w6 & _ & Hbody).
  apply bind_inr in Hbody as (sp & w7 & _ & Hbody).
  apply bind_inr in Hbody as (tp & w8 & _ & Hbody).
  unfold migrate_apply in Hbody.
  apply bind_inr in Hbody as (u9 & w10 & _ & Hbody).
  apply bind_inr in Hbody as (u10 & w11 & _ & Hbody).
  apply update_switch_config_returned in Hbody as (line & line' & Ht).
  destruct (update_switch_config_sends_renamed_name sd) as [name Hname].
  exists (trace w11 ++ [Echo line]). eexists. exists name, line'.
  split; [rewrite Ht; by rewrite <- app_assoc|exact Hname].
Qed.

(** *** The [display] command *)

(** [display] only reads: besides console lines, all it leaves in the trace
    is the construction of the client and reads of the device and of its
    ports.  It never updates or clones. *)
Theorem display_only_reads dashboard_api api_key device_serial :
  emits (only_reads_of device_serial)
    (display py_repr dashboard_api api_key device_serial).
Proof. unfold display. repeat emits_prog. Qed.

(** Whatever fails inside [display], the error of a read included, the
    caller sees the error of [display]; the only other error is the missing
    key. *)
Theorem display_errors dashboard_api api_key device_serial w e :
  fst (display py_repr dashboard_api api_key device_serial w) = inl e ->
  e = ClickException
        ("Error displaying switch configuration for " +:+ device_serial
           +:+ ".") \/
  (e = BadParameter
         "No API key provided. Please set the environment variable MERAKI_DASHBOARD_API_KEY." /\
   api_key = "MERAKI_DASHBOARD_API_KEY" /\
   dict_get "MERAKI_DASHBOARD_API_KEY" (environ w) = None).
Proof.
  unfold display, bind at 1.
  destruct (String.eqb_spec api_key "MERAKI_DASHBOARD_API_KEY") as [->|_].
  - unfold get_api_key_from_env.
    destruct (dict_get _ (environ w)) as [key|] eqn:Henv.
    + unfold try_except. destruct (bind _ _ w) as [[e'|[]] w1]; cbn.
      * intros [= <-]. by left.
      * discriminate.
    + cbn. intros [= <-]. right. repeat split.
  - unfold ret, try_except. destruct (bind _ _ w) as [[e'|[]] w1]; cbn.
    + intros [= <-]. by left.
    + discriminate.
Qed.

(** *** The [tag] command *)

Lemma contains_appended (l : list pyval) (s : string) :
  py_contains (PyList (l ++ [PyStr s])) (PyStr s) = inr true.
Proof.
  cbn [py_contains]. f_equal. rewrite existsb_app. cbn [existsb py_eq].
  by rewrite String.eqb_refl, orb_true_r.
Qed.

(** On a device whose tags are the list [l], the tagging step of [tag] makes
    one call: it sets the tags of the device, and nothing else, to [l]
    followed by "undeployed", also when [l] has the tag already.  Tags set
    this way pass the tag check of [migrate]. *)
Theorem add_undeployed_tag_appends dashboard_api device_serial device w l :
  Device.tags device = PyList l ->
  py_contains (PyList (l ++ [PyStr "undeployed"])) (PyStr "undeployed")
  = inr true /\
  exists t,
    trace (snd (add_undeployed_tag py_repr dashboard_api device_serial device w))
    = trace w ++ t /\
    calls t
    = [updateDevice device_serial
         [("tags", PyList (l ++ [PyStr "undeployed"]))]].
Proof.
  intros Htags. split; [apply contains_appended|].
  unfold add_undeployed_tag, bind at 1, echo.
  unfold bind at 1. rewrite Htags. cbn [py_append lift ret].
  unfold bind, invoke. cbn [remote emit with_remote].
  destruct (dashboard_api _ (remote w)) as [[e|response] remote1];
    cbn [snd trace emit with_remote echo].
  - eexists. rewrite <- app_assoc. split; reflexivity.
  - eexists. rewrite <- !app_assoc. split; reflexivity.
Qed.

(** Whatever [tag] is run on, the only updates it makes are of the device it
    was given, and they set the tags of that device, and nothing else, to a
    list that ends with "undeployed"; it reads nothing but that device. *)
Theorem tag_only_appends_tag dashboard_api api_key device_serial :
  emits (only_tagging_of device_serial)
    (tag py_repr dashboard_api api_key device_serial).
Proof. unfold tag. repeat emits_prog. Qed.

Lemma show_fields_run items w :
  exists t,
    show_fields py_repr items w
    = (inr tt, mkWorld (heap w) (remote w) (trace w ++ t) (stdin w) (environ w)) /\
    calls t = [].
Proof.
  revert w. unfold show_fields.
  induction items as [|f items IH]; intros w; cbn [for_each].
  - exists []. rewrite app_nil_r. by destruct w.
  - unfold bind at 1. destruct (negb (is_none (snd f))).
    + cbn [echo].
      destruct (IH (emit (Echo (fst f +:+ ": " +:+ py_str py_repr (snd f))) w))
        as (t & Hrun & Hcalls).
      exists (Echo (fst f +:+ ": " +:+ py_str py_repr (snd f)) :: t).
      rewrite Hrun. cbn [heap remote trace stdin environ emit].
      rewrite <- app_assoc. split; [reflexivity|exact Hcalls].
    + cbn [ret]. apply IH.
Qed.

(** [tag] cannot tag a device that has no tags: when the answer to the read
    has no [tags], or [None] for it, the command raises [AttributeError],
    which it does not catch, and the device is not updated. *)
Theorem tag_without_tags_raises dashboard_api api_key key device_serial w
    client_object remote1 mapping remote2 :
  (if String.eqb api_key "MERAKI_DASHBOARD_API_KEY"
   then dict_get "MERAKI_DASHBOARD_API_KEY" (environ w)
   else Some api_key) = Some key ->
  dashboard_api (DashboardAPI key true) (remote w) = (inr client_object, remote1) ->
  dashboard_api (getDevice device_serial) remote1 = (inr (PyDict mapping), remote2) ->
  unset_in mapping "tags" ->
  fst (tag py_repr dashboard_api api_key device_serial w) = inl AttributeError /\
  exists t,
    trace (snd (tag py_repr dashboard_api api_key device_serial w))
    = trace w ++ t /\
    calls t = [DashboardAPI key true; getDevice device_serial].
Proof.
  intros Hkey Hclient Hget Hunset.
  remember (tag py_repr dashboard_api api_key device_serial w) as run eqn:Hrun.
  unfold tag in Hrun. rewrite (resolve_key _ key) in Hrun by exact Hkey.
  destruct (Device_init_known mapping) as [d Hd].
  assert (Htags : Device.tags d = PyNone).
  { rewrite (Device_items_init _ d "tags" (Device.tags d) Hd).
    - by apply arg_unset.
    - cbn. tauto. }
  unfold try_except, bind at 1, invoke in Hrun. rewrite Hclient in Hrun.
  unfold bind at 1, get_switch_config, try_except, bind at 1, invoke in Hrun.
  cbn [remote emit with_remote] in Hrun. rewrite Hget in Hrun.
  unfold bind at 1 in Hrun. cbn [py_items lift ret] in Hrun.
  unfold bind at 1 in Hrun. rewrite Hd in Hrun.
  cbn [lift ret] in Hrun. unfold bind at 1, echo in Hrun.
  unfold bind at 1 in Hrun.
  match type of Hrun with
  | context [show_fields py_repr (Device.items d) ?w0] =>
      destruct (show_fields_run (Device.items d) w0) as (ts & Hshow & Hcs)
  end.
  rewrite Hshow in Hrun.
  unfold bind at 1, add_undeployed_tag, bind at 1, echo in Hrun.
  unfold bind at 1 in Hrun. rewrite Htags in Hrun.
  cbn [py_append lift raise is_APIError fst snd trace emit with_remote heap
       remote stdin environ] in Hrun.
  subst run. cbn [fst snd trace emit heap remote stdin environ with_remote].
  split; [reflexivity|].
  eexists. rewrite <- !app_assoc. split; [reflexivity|].
  rewrite !calls_app, Hcs. reflexivity.
Qed.

(** *** Port numbers after renumbering *)

Lemma set_portId_back (q : SwitchPort) v :
  Port.set_portId (Port.set_portId q v) (Port.portId q) = q.
Proof. by destruct q. Qed.


(** A renumbered port carries the decimal text of its new number, which
    [int] reads back as that number; its other fields are untouched. *)
Theorem shift_portId_readable delta a (q : SwitchPort) k w :
  heap w !! a = Some q -> py_int (Port.portId q) = inr k ->
  exists q' : SwitchPort,
    shift_portId delta a w = (inr tt, with_heap (<[a := q']> (heap w)) w) /\
    Port.portId q' = PyStr (str_of_int (k + delta)) /\
    py_int (Port.portId q') = inr (k + delta) /\
    Port.set_portId q' (Port.portId q) = q.
Proof.
  intros Hq Hk. exists (Port.set_portId q (PyStr (str_of_int (k + delta)))).
  split; [by apply shift_portId_run|].
  split; [reflexivity|]. split; [|apply set_portId_back].
  cbn [Port.portId Port.set_portId py_int].
  by rewrite int_of_str_str_of_int.
Qed.


End Coverage.

(** ** Concrete runs of the further properties *)

Lemma get_switch_config_fields_witness :
  exists d,
    get_switch_config (Demo.dashboard 8 8 "MS120-8" "MS120-8" false) "SRC"
      Demo.start
    = (inr d, emit (Called (getDevice "SRC")) (with_remote tt Demo.start)) /\
    map fst (Device.items d) = Device.parameters /\
    forall k v, In (k, v) (Device.items d) ->
                v = default PyNone (dict_get k Demo.source_mapping).
Proof.
  apply (get_switch_config_fields (Demo.dashboard 8 8 "MS120-8" "MS120-8" false)
           "SRC" Demo.start Demo.source_mapping tt).
  - reflexivity.
  - apply (bool_decide_unpack _). by vm_compute.
Defined.

Lemma get_switch_ports_no_ports_witness :
  get_switch_ports (Demo.dashboard 0 0 "MS120-8" "MS120-8" false) "SRC"
    Demo.start
  = (inl (ClickException "Error getting port configurations on switch SRC."),
     emit (Called (getDeviceSwitchPorts "SRC")) (with_remote tt Demo.start)).
Proof.
  apply (get_switch_ports_no_ports
           (Demo.dashboard 0 0 "MS120-8" "MS120-8" false) "SRC" Demo.start
           (PyList []) tt); reflexivity.
Defined.

Lemma adjusted_source_ports_same_count_witness :
  adjusted_source_ports (seq 0 8) "TGT" 10 Demo.fetched_8
  = (inr (seq 0 8), Demo.fetched_8).
Proof.
  apply (adjusted_source_ports_same_count (seq 0 8) "TGT" 10 Demo.fetched_8 8).
  - discriminate.
  - reflexivity.
  - reflexivity.
Defined.

Lemma update_switch_ports_fails_before_updating_witness :
  update_switch_ports Demo.repr (Demo.dashboard 26 52 "MS120-24" "MS120-48" false)
    (seq 0 26) "TGT" 52 Demo.unnumbered
  = (inl TypeError,
     snd (adjusted_source_ports (seq 0 26) "TGT" 52 Demo.unnumbered)) /\
  trace (snd (adjusted_source_ports (seq 0 26) "TGT" 52 Demo.unnumbered))
  = trace Demo.unnumbered.
Proof.
  apply (update_switch_ports_fails_before_updating Demo.repr
           (Demo.dashboard 26 52 "MS120-24" "MS120-48" false)
           (seq 0 26) "TGT" 52 Demo.unnumbered TypeError).
  vm_compute. reflexivity.
Defined.

Lemma update_switch_ports_in_order_witness :
  heap (snd Demo.port_3_run) = heap Demo.fetched_8 /\
  length Demo.port_calls = length (seq 0 8) /\
  exists t,
    trace (snd Demo.port_3_run) = trace Demo.fetched_8 ++ t /\
    calls t = take (length Demo.port_3_answers) Demo.port_calls /\
    match last Demo.port_3_answers with
    | Some (inl _) =>
        exists a q,
          seq 0 8 !! (length Demo.port_3_answers - 1)%nat = Some a /\
          heap Demo.fetched_8 !! a = Some q /\
          fst Demo.port_3_run
          = inl (ClickException
                   ("Error updating port " +:+ py_str Demo.repr (Port.portId q)
                      +:+ " on switch " +:+ "TGT" +:+ "."))
    | _ =>
        fst Demo.port_3_run = inr tt /\
        length Demo.port_3_answers = length (seq 0 8)
    end.
Proof.
  apply (update_switch_ports_in_order Demo.repr Demo.port_3_fails (seq 0 8)
           "TGT" 10 Demo.fetched_8 (seq 0 8) Demo.fetched_8).
  - vm_compute. reflexivity.
  - apply fetched_valid. vm_compute. reflexivity.
Defined.

(** On that dashboard the answer to the third call is the failure: the ports
    1 and 2 have been updated, the call for port 3 is the last one, and the
    error names port 3. *)
Lemma port_3_failure_stops_updates :
  last Demo.port_3_answers = Some (inl (APIError "404 Not Found")) /\
  length Demo.port_3_answers = 3%nat /\
  fst Demo.port_3_run
  = inl (ClickException "Error updating port 3 on switch TGT.") /\
  omap (fun e => match e with
                 | Called (updateDeviceSwitchPort _ port_id _) => Some port_id
                 | _ => None
                 end) (trace (snd Demo.port_3_run))
  = [PyStr "1"; PyStr "2"; PyStr "3"].
Proof. vm_compute. repeat split. Qed.

Lemma migrate_mutates_only_checked_target_witness :
  exists mapping target_device,
    fst (Demo.dashboard 8 8 "MS120-8" "MS120-8" false (getDevice "TGT")
           (snd (Demo.dashboard 8 8 "MS120-8" "MS120-8" false (getDevice "SRC")
                   (snd (Demo.dashboard 8 8 "MS120-8" "MS120-8" false
                           (DashboardAPI "0123456789abcdef" true)
                           (remote Demo.start))))))
    = inr (PyDict mapping) /\
    Device.init (known_items Device.parameters mapping) = inr target_device /\
    py_eq (Device.name target_device) (Device.mac target_device) = false /\
    py_contains (Device.tags target_device) (PyStr "undeployed") = inr true /\
    (true = true \/
     In (Confirm (confirm_prompt "SRC" "TGT")) (trace (snd Demo.successful_run))).
Proof.
  apply (migrate_mutates_only_checked_target Demo.repr
           (Demo.dashboard 8 8 "MS120-8" "MS120-8" false)
           "MERAKI_DASHBOARD_API_KEY" "0123456789abcdef" (Some "537758")
           true true "SRC" "TGT" Demo.start (trace (snd Demo.successful_run))).
  - reflexivity.
  - reflexivity.
  - vm_compute. reflexivity.
Defined.

Lemma commands_need_api_key_witness :
  migrate Demo.repr (Demo.dashboard 8 8 "MS120-8" "MS120-8" false)
    "MERAKI_DASHBOARD_API_KEY" None false false "SRC" "TGT" Demo.no_environment
  = (inl (BadParameter
            "No API key provided. Please set the environment variable MERAKI_DASHBOARD_API_KEY."),
     Demo.no_environment) /\
  display Demo.repr (Demo.dashboard 8 8 "MS120-8" "MS120-8" false)
    "MERAKI_DASHBOARD_API_KEY" "TGT" Demo.no_environment
  = (inl (BadParameter
            "No API key provided. Please set the environment variable MERAKI_DASHBOARD_API_KEY."),
     Demo.no_environment) /\
  tag Demo.repr (Demo.dashboard 8 8 "MS120-8" "MS120-8" false)
    "MERAKI_DASHBOARD_API_KEY" "TGT" Demo.no_environment
  = (inl (BadParameter
            "No API key provided. Please set the environment variable MERAKI_DASHBOARD_API_KEY."),
     Demo.no_environment).
Proof.
  apply (commands_need_api_key Demo.repr
           (Demo.dashboard 8 8 "MS120-8" "MS120-8" false) None false false
           "SRC" "TGT" Demo.no_environment).
  reflexivity.
Defined.

Lemma migrate_returns_after_device_update_witness :
  exists t kwargs name line,
    trace (snd Demo.successful_run)
    = t ++ [Called (updateDevice "TGT" kwargs); Echo line] /\
    dict_get "name" kwargs = Some (PyStr (name +:+ "-clone")).
Proof.
  apply (migrate_returns_after_device_update Demo.repr
           (Demo.dashboard 8 8 "MS120-8" "MS120-8" false)
           "MERAKI_DASHBOARD_API_KEY" (Some "537758") true true "SRC" "TGT"
           Demo.start (snd Demo.successful_run)).
  vm_compute. reflexivity.
Defined.

Lemma display_errors_witness :
  ClickException "Error displaying switch configuration for SRC."
  = ClickException
      ("Error displaying switch configuration for " +:+ "SRC" +:+ ".") \/
  (ClickException "Error displaying switch configuration for SRC."
   = BadParameter
       "No API key provided. Please set the environment variable MERAKI_DASHBOARD_API_KEY." /\
   "0123456789abcdef" = "MERAKI_DASHBOARD_API_KEY" /\
   dict_get "MERAKI_DASHBOARD_API_KEY" (environ Demo.start) = None).
Proof.
  apply (display_errors Demo.repr (Demo.dashboard 0 0 "MS120-8" "MS120-8" false)
           "0123456789abcdef" "SRC" Demo.start).
  vm_compute. reflexivity.
Defined.

Lemma add_undeployed_tag_appends_witness :
  py_contains (PyList ([PyStr "lab"; PyStr "undeployed"] ++ [PyStr "undeployed"]))
    (PyStr "undeployed") = inr true /\
  exists t,
    trace (snd (add_undeployed_tag Demo.repr
                  (Demo.dashboard 8 8 "MS120-8" "MS120-8" false) "TGT"
                  Demo.target_ready Demo.start))
    = trace Demo.start ++ t /\
    calls t
    = [updateDevice "TGT"
         [("tags",
           PyList ([PyStr "lab"; PyStr "undeployed"] ++ [PyStr "undeployed"]))]].
Proof.
  apply (add_undeployed_tag_appends Demo.repr
           (Demo.dashboard 8 8 "MS120-8" "MS120-8" false) "TGT"
           Demo.target_ready Demo.start [PyStr "lab"; PyStr "undeployed"]).
  reflexivity.
Defined.

Lemma tag_without_tags_raises_witness :
  fst (tag Demo.repr Demo.untagged_dashboard "0123456789abcdef" "TGT" Demo.start)
  = inl AttributeError /\
  exists t,
    trace (snd (tag Demo.repr Demo.untagged_dashboard "0123456789abcdef" "TGT"
                  Demo.start))
    = trace Demo.start ++ t /\
    calls t = [DashboardAPI "0123456789abcdef" true; getDevice "TGT"].
Proof.
  apply (tag_without_tags_raises Demo.repr Demo.untagged_dashboard
           "0123456789abcdef" "0123456789abcdef" "TGT" Demo.start PyNone tt
           Demo.untagged_mapping tt).
  - reflexivity.
  - reflexivity.
  - reflexivity.
  - intros v Hv. unfold Demo.untagged_mapping in Hv. cbn [In] in Hv.
    repeat (destruct Hv as [Hv|Hv]; [inversion Hv; try reflexivity|]).
    destruct Hv.
Defined.

Lemma shift_portId_readable_witness :
  exists q' : SwitchPort,
    shift_portId 24 24%nat Demo.fetched_26
    = (inr tt,
       with_heap (<[24%nat := q']> (heap Demo.fetched_26)) Demo.fetched_26) /\
    Port.portId q' = PyStr (str_of_int (25 + 24)) /\
    py_int (Port.portId q') = inr (25 + 24) /\
    Port.set_portId q' (Port.portId Demo.port_25) = Demo.port_25.
Proof.
  apply (shift_portId_readable 24 24%nat Demo.port_25 25 Demo.fetched_26).
  - vm_compute. reflexivity.
  - reflexivity.
Defined.

